(** * libauth: the BCH template compiler operations

    A shallow embedding of the compiler operations of
    [src/lib/template/compiler-bch/compiler-bch.ts], of the common operations
    of [compiler-operations.ts] and of the template adapter of [compiler.ts],
    followed by the properties the specification states about them.

    JavaScript values are modelled as follows.
    - A [Uint8Array] is a [list byte].
    - A string is a [string]; the only non-ASCII character of the source, the
      en dash of the unknown-component message, is its three UTF-8 bytes.
    - An object used as a dictionary ([keys.publicKeys], [scripts],
      [entityOwnership], ...) is a [gmap string _]; the prototype chain is
      not modelled.  An object whose enumeration order matters
      ([template.entities]) is the list of its entries in that order.
    - An optional property is an [option]; [None] is [undefined].
    - A number that the code only adds and prints is a [Z]; a number that
      goes through a bitwise operator is a [Z] with the 32-bit wrap-around of
      the operator written out.
    - A function body that would read a property of [undefined] throws a
      [TypeError]; such a body returns [None], any other [Some]. *)

From Stdlib Require Import ZArith String Ascii List DecimalString Lia.
From Stdlib.Strings Require Import Byte.
From stdpp Require Import base option list strings gmap.

(** ** JavaScript primitives used by the source *)

Module Js.

Local Open Scope Z_scope.

Definition Uint8Array := list byte.

(** [ToInt32] of an integral number. *)
Definition ToInt32 (n : Z) : Z :=
  let m := n mod 2 ^ 32 in
  if 2 ^ 31 <=? m then m - 2 ^ 32 else m.

(** The operator [a | b]. *)
Definition bitor (a b : Z) : Z :=
  ToInt32 (Z.lor (ToInt32 a) (ToInt32 b)).

(** [ToUint8]: the conversion applied to a number stored in a
    [Uint8Array]. *)
Definition ToUint8 (n : Z) : byte :=
  match Byte.of_N (Z.to_N (n mod 256)) with
  | Some b => b
  | None => x00
  end.

Definition byte_value (b : byte) : Z := Z.of_N (Byte.to_N b).

(** [Uint8Array.of(n)] *)
Definition Uint8Array_of (n : Z) : Uint8Array := [ToUint8 n].

(** [Uint8Array.of()] *)
Definition Uint8Array_empty : Uint8Array := [].

(** [s.split(sep)] for a one-character separator. *)
Fixpoint split (sep : ascii) (s : string) : list string :=
  match s with
  | EmptyString => [EmptyString]
  | String c rest =>
      if Ascii.eqb c sep then EmptyString :: split sep rest
      else match split sep rest with
           | [] => [String c EmptyString]
           | segment :: segments => String c segment :: segments
           end
  end.

(** [s.replace(pattern, replacement)] for a one-character string pattern
    and a replacement without [$]: only the first occurrence is
    replaced. *)
Fixpoint replace (pattern : ascii) (replacement : string) (s : string)
  : string :=
  match s with
  | EmptyString => EmptyString
  | String c rest =>
      if Ascii.eqb c pattern then replacement +:+ rest
      else String c (replace pattern replacement rest)
  end.

(** [n.toString()] of an integer below 1e21 in magnitude. *)
Definition Number_toString (n : Z) : string :=
  NilZero.string_of_int (Z.to_int n).

(** The double-quote character and the en dash. *)
Definition dquote : string := String "034"%char EmptyString.
Definition endash : string :=
  String "226"%char (String "128"%char (String "147"%char EmptyString)).

(** A template fragment between double quotes. *)
Definition quoted (s : string) : string := dquote +:+ s +:+ dquote.

Definition dot : ascii := "."%char.

End Js.

Import Js.

(** ** [compiler-types.ts]: results, compilation data, environment *)

(** [CompilerOperationResult].  An error literal of the source that omits
    [recoverable] leaves it [undefined]; that is the fatal error, here
    [recoverable := false]. *)
Inductive CompilerOperationResult :=
| Success (bytecode : Uint8Array)
| Skip
| Error (error : string) (recoverable : bool).

(** [Sha256], the part the compiler uses. *)
Record Sha256 := { hash : Uint8Array → Uint8Array }.

(** [Secp256k1], the part the compiler uses.  The methods are functions
    from bytes to bytes, as their types say; the compiler catches
    nothing. *)
Record Secp256k1 := {
  derivePublicKeyCompressed : Uint8Array → Uint8Array;
  signMessageHashDER : Uint8Array → Uint8Array → Uint8Array;
  signMessageHashSchnorr : Uint8Array → Uint8Array → Uint8Array;
}.

(** [CompilerOperationDataCommon] *)
Record CompilerOperationDataCommon := {
  correspondingOutput : option Uint8Array;
  coveredBytecode : Uint8Array;
  locktime : Z;
  outpointIndex : Z;
  outpointTransactionHash : Uint8Array;
  outputValue : Z;
  sequenceNumber : Z;
  transactionOutpoints : Uint8Array;
  transactionOutputs : Uint8Array;
  transactionSequenceNumbers : Uint8Array;
  version : Z;
}.

(** The argument object of [generateSigningSerializationBCH]. *)
Record SigningSerializationArguments := {
  ss_correspondingOutput : option Uint8Array;
  ss_coveredBytecode : Uint8Array;
  ss_locktime : Z;
  ss_outpointIndex : Z;
  ss_outpointTransactionHash : Uint8Array;
  ss_outputValue : Z;
  ss_sequenceNumber : Z;
  ss_sha256 : Sha256;
  ss_signingSerializationType : Uint8Array;
  ss_transactionOutpoints : Uint8Array;
  ss_transactionOutputs : Uint8Array;
  ss_transactionSequenceNumbers : Uint8Array;
  ss_version : Z;
}.

(** The enum [SigningSerializationFlag] of
    [vm/instruction-sets/common/signing-serialization.ts]; its members are
    numeric constants. *)
Record SigningSerializationFlag := {
  all_outputs : Z;
  no_outputs : Z;
  corresponding_output : Z;
  fork_id : Z;
  single_input : Z;
}.

(** An [HdKey] template variable, the properties the operations read. *)
Record HdKey := {
  addressOffset : option Z;
  privateDerivationPath : option string;
  publicDerivationPath : option string;
}.

(** [AuthenticationTemplateVariable] *)
Inductive AuthenticationTemplateVariable :=
| VariableAddressData
| VariableHdKey (hdKey : HdKey)
| VariableKey
| VariableWalletData.

(** The cast [variable as HdKey]: a variable of another type has none of
    the [HdKey] properties. *)
Definition asHdKey (variable : AuthenticationTemplateVariable) : HdKey :=
  match variable with
  | VariableHdKey hdKey => hdKey
  | _ => {| addressOffset := None;
            privateDerivationPath := None;
            publicDerivationPath := None |}
  end.

(** [CompilationData.keys] *)
Record CompilationDataKeys := {
  privateKeys : option (gmap string Uint8Array);
  publicKeys : option (gmap string Uint8Array);
  signatures : option (gmap string Uint8Array);
}.

(** [CompilationData.hdKeys] *)
Record CompilationDataHdKeys := {
  addressIndex : option Z;
  derivedPublicKeys : option (gmap string Uint8Array);
  hdPrivateKeys : option (gmap string string);
  hdPublicKeys : option (gmap string string);
}.

(** [CompilationData] *)
Record CompilationData := {
  data_addressData : option (gmap string Uint8Array);
  data_currentBlockHeight : option Z;
  data_currentBlockTime : option Z;
  data_hdKeys : option CompilationDataHdKeys;
  data_keys : option CompilationDataKeys;
  data_operationData : option CompilerOperationDataCommon;
  data_walletData : option (gmap string Uint8Array);
}.

(** [CompilationEnvironment], the properties the operations read.  The
    other hash functions are only tested for presence. *)
Record CompilationEnvironment := {
  env_entityOwnership : option (gmap string string);
  env_ripemd160 : option unit;
  env_scripts : gmap string string;
  env_secp256k1 : option Secp256k1;
  env_sha256 : option Sha256;
  env_sha512 : option unit;
  env_variables : option (gmap string AuthenticationTemplateVariable);
}.

(** The property names an operation can require. *)
Module DataProperty.
Inductive t :=
| addressData | currentBlockHeight | currentBlockTime | hdKeys | keys
| operationData | walletData.

Definition name (property : t) : string :=
  match property with
  | addressData => "addressData"
  | currentBlockHeight => "currentBlockHeight"
  | currentBlockTime => "currentBlockTime"
  | hdKeys => "hdKeys"
  | keys => "keys"
  | operationData => "operationData"
  | walletData => "walletData"
  end.

(** [data[property] !== undefined] *)
Definition provided (data : CompilationData) (property : t) : bool :=
  match property with
  | addressData => bool_decide (is_Some data.(data_addressData))
  | currentBlockHeight => bool_decide (is_Some data.(data_currentBlockHeight))
  | currentBlockTime => bool_decide (is_Some data.(data_currentBlockTime))
  | hdKeys => bool_decide (is_Some data.(data_hdKeys))
  | keys => bool_decide (is_Some data.(data_keys))
  | operationData => bool_decide (is_Some data.(data_operationData))
  | walletData => bool_decide (is_Some data.(data_walletData))
  end.
End DataProperty.

Module EnvironmentProperty.
Inductive t :=
| entityOwnership | ripemd160 | secp256k1 | sha256 | sha512 | variables.

Definition name (property : t) : string :=
  match property with
  | entityOwnership => "entityOwnership"
  | ripemd160 => "ripemd160"
  | secp256k1 => "secp256k1"
  | sha256 => "sha256"
  | sha512 => "sha512"
  | variables => "variables"
  end.

(** [environment[property] !== undefined] *)
Definition provided (environment : CompilationEnvironment) (property : t)
  : bool :=
  match property with
  | entityOwnership => bool_decide (is_Some environment.(env_entityOwnership))
  | ripemd160 => bool_decide (is_Some environment.(env_ripemd160))
  | secp256k1 => bool_decide (is_Some environment.(env_secp256k1))
  | sha256 => bool_decide (is_Some environment.(env_sha256))
  | sha512 => bool_decide (is_Some environment.(env_sha512))
  | variables => bool_decide (is_Some environment.(env_variables))
  end.
End EnvironmentProperty.

(** [CompilerOperation]: [None] is an uncaught [TypeError]. *)
Definition CompilerOperation : Type :=
  string → CompilationData → CompilationEnvironment →
  option CompilerOperationResult.

(** ** [compiler-operation-helpers.ts] *)

(** Modelled from the spec: the prerequisite check of
    [compilerOperationRequires], the first listed property that is not
    provided, those of the data first. *)
Definition missingProperty
    (dataProperties : list DataProperty.t)
    (environmentProperties : list EnvironmentProperty.t)
    (data : CompilationData) (environment : CompilationEnvironment)
  : option string :=
  match
    List.find (λ p, negb (DataProperty.provided data p)) dataProperties,
    List.find (λ p, negb (EnvironmentProperty.provided environment p))
              environmentProperties
  with
  | Some p, _ => Some (DataProperty.name p)
  | None, Some p => Some (EnvironmentProperty.name p)
  | None, None => None
  end.

(** Modelled from the spec: [compilerOperationRequires] of
    [compiler-operation-helpers.ts], which is not among the sources.  Before
    calling the wrapped operation it verifies that every listed property is
    present on the data and the environment.  When one is missing the result
    is [Skip] under [canBeSkipped] and otherwise a fatal error naming the
    missing property; when all are present the operation runs and its
    result is returned verbatim. *)
Definition compilerOperationRequires
    (canBeSkipped : bool)
    (dataProperties : list DataProperty.t)
    (environmentProperties : list EnvironmentProperty.t)
    (operation : CompilerOperation) : CompilerOperation :=
  λ identifier data environment,
    match
      missingProperty dataProperties environmentProperties data environment
    with
    | Some property =>
        Some (if canBeSkipped then Skip
              else Error ("missing property: " +:+ property) false)
    | None => operation identifier data environment
    end.

(** Modelled from the spec: the chain of [attemptCompilerOperations];
    [lastError] is the last recoverable error met so far. *)
Fixpoint attemptChain
    (operations : list CompilerOperation)
    (lastError : option CompilerOperationResult) : CompilerOperation :=
  λ identifier data environment,
    match operations with
    | [] =>
        Some (match lastError with
              | Some error => error
              | None => Error "no operation produced a result" false
              end)
    | operation :: rest =>
        match operation identifier data environment with
        | None => None
        | Some (Success bytecode) => Some (Success bytecode)
        | Some Skip => attemptChain rest lastError identifier data environment
        | Some (Error error true) =>
            attemptChain rest (Some (Error error true))
                         identifier data environment
        | Some (Error error false) => Some (Error error false)
        end
    end.

(** Modelled from the spec: [attemptCompilerOperations] of
    [compiler-operation-helpers.ts], which is not among the sources.  The
    operations are invoked in order, the final operation last.  [Skip]
    advances to the next; a [Success] is returned immediately; a recoverable
    error also advances; a fatal error aborts and is returned.  If every
    operation skips or fails recoverably, the result is the last error, or
    an error saying that no operation produced a result. *)
Definition attemptCompilerOperations
    (operations : list CompilerOperation)
    (finalOperation : CompilerOperation) : CompilerOperation :=
  attemptChain (operations ++ [finalOperation]) None.

(** The result of [resolveScriptIdentifier]: a successful compilation, the
    message of a failed one, or [false] for an unknown script. *)
Inductive ScriptResolution :=
| ResolvedScript (bytecode : Uint8Array)
| ResolutionError (message : string)
| ResolutionFalse.

(** The pieces of [identifier.split('.')] the operations destructure. *)
Definition segments (identifier : string) : list string :=
  split dot identifier.

(** [const [variableId] = identifier.split('.')]; the array never is
    empty. *)
Definition variableIdOf (identifier : string) : string :=
  List.hd EmptyString (segments identifier).

(** ** [compiler-bch.ts] *)

Module SigningSerializationAlgorithmIdentifier.
Definition all_outputs : string := "all_outputs".
Definition all_outputs_single_input : string := "all_outputs_single_input".
Definition corresponding_output : string := "corresponding_output".
Definition corresponding_output_single_input : string :=
  "corresponding_output_single_input".
Definition no_outputs : string := "no_outputs".
Definition no_outputs_single_input : string := "no_outputs_single_input".
End SigningSerializationAlgorithmIdentifier.

Module Algo := SigningSerializationAlgorithmIdentifier.

(** The message of an unexpected trailing segment, shared by the
    operations. *)
Definition unknownComponentError (identifier unknown : string) : string :=
  "Unknown component in " +:+ quoted identifier +:+ " " +:+ endash
  +:+ " the fragment " +:+ quoted unknown +:+ " is not recognized.".

Section CompilerBCH.

(** The imports of [compiler-bch.ts] that are not among the sources. *)
Variable Flag : SigningSerializationFlag.
Variable generateSigningSerializationBCH :
  SigningSerializationArguments → Uint8Array.
Variable resolveScriptIdentifier :
  CompilationData → CompilationEnvironment → string → ScriptResolution.

(** [getSigningSerializationType(algorithmIdentifier, prefix = '')]: the
    [switch] compares with [===], first matching [case] first. *)
Definition getSigningSerializationType
    (algorithmIdentifier : string) (prefix : string) : option Uint8Array :=
  if String.eqb algorithmIdentifier (prefix +:+ Algo.all_outputs) then
    Some (Uint8Array_of (bitor Flag.(all_outputs) Flag.(fork_id)))
  else if String.eqb algorithmIdentifier
            (prefix +:+ Algo.all_outputs_single_input) then
    Some (Uint8Array_of
            (bitor (bitor Flag.(all_outputs) Flag.(single_input))
                   Flag.(fork_id)))
  else if String.eqb algorithmIdentifier
            (prefix +:+ Algo.corresponding_output) then
    Some (Uint8Array_of
            (bitor Flag.(corresponding_output) Flag.(fork_id)))
  else if String.eqb algorithmIdentifier
            (prefix +:+ Algo.corresponding_output_single_input) then
    Some (Uint8Array_of
            (bitor (bitor Flag.(corresponding_output) Flag.(single_input))
                   Flag.(fork_id)))
  else if String.eqb algorithmIdentifier (prefix +:+ Algo.no_outputs) then
    Some (Uint8Array_of (bitor Flag.(no_outputs) Flag.(fork_id)))
  else if String.eqb algorithmIdentifier
            (prefix +:+ Algo.no_outputs_single_input) then
    Some (Uint8Array_of
            (bitor (bitor Flag.(no_outputs) Flag.(single_input))
                   Flag.(fork_id)))
  else None.

(** The argument object both callers of [generateSigningSerializationBCH]
    build from the operation data. *)
Definition signingSerializationArguments
    (operationData : CompilerOperationDataCommon) (sha256 : Sha256)
    (signingSerializationType : Uint8Array)
  : SigningSerializationArguments :=
  {| ss_correspondingOutput := operationData.(correspondingOutput);
     ss_coveredBytecode := operationData.(coveredBytecode);
     ss_locktime := operationData.(locktime);
     ss_outpointIndex := operationData.(outpointIndex);
     ss_outpointTransactionHash := operationData.(outpointTransactionHash);
     ss_outputValue := operationData.(outputValue);
     ss_sequenceNumber := operationData.(sequenceNumber);
     ss_sha256 := sha256;
     ss_signingSerializationType := signingSerializationType;
     ss_transactionOutpoints := operationData.(transactionOutpoints);
     ss_transactionOutputs := operationData.(transactionOutputs);
     ss_transactionSequenceNumbers :=
       operationData.(transactionSequenceNumbers);
     ss_version := operationData.(version) |}.

(** [compilerOperationHelperComputeSignatureBCH] *)
Definition compilerOperationHelperComputeSignatureBCH
    (identifier : string) (operationData : CompilerOperationDataCommon)
    (operationName : string) (privateKey : Uint8Array) (sha256 : Sha256)
    (sign : Uint8Array → Uint8Array → Uint8Array)
  : CompilerOperationResult :=
  let algorithm := segments identifier !! 2%nat in
  let unknown := segments identifier !! 3%nat in
  match unknown with
  | Some unknown => Error (unknownComponentError identifier unknown) false
  | None =>
      match algorithm with
      | None =>
          Error ("Invalid signature identifier. Signatures must be of the form: "
                 +:+ quoted ("[variable_id]." +:+ operationName
                             +:+ ".[signing_serialization_type]")
                 +:+ ".") false
      | Some algorithm =>
          match getSigningSerializationType algorithm EmptyString with
          | None =>
              Error ("Unknown signing serialization algorithm, "
                     +:+ quoted algorithm +:+ ".") false
          | Some signingSerializationType =>
              let serialization :=
                generateSigningSerializationBCH
                  (signingSerializationArguments
                     operationData sha256 signingSerializationType) in
              let digest :=
                sha256.(hash) (sha256.(hash) serialization) in
              let bitcoinEncodedSignature :=
                sign privateKey digest ++ signingSerializationType in
              Success bitcoinEncodedSignature
          end
      end
  end.

(** [compilerOperationHelperComputeDataSignatureBCH] *)
Definition compilerOperationHelperComputeDataSignatureBCH
    (data : CompilationData) (environment : CompilationEnvironment)
    (identifier : string) (operationName : string)
    (privateKey : Uint8Array) (sha256 : Sha256)
    (sign : Uint8Array → Uint8Array → Uint8Array)
  : CompilerOperationResult :=
  let scriptId := segments identifier !! 2%nat in
  let unknown := segments identifier !! 3%nat in
  match unknown with
  | Some unknown => Error (unknownComponentError identifier unknown) false
  | None =>
      match scriptId with
      | None =>
          Error ("Invalid data signature identifier. Data signatures must be of the form: "
                 +:+ quoted ("[variable_id]." +:+ operationName
                             +:+ ".[target_script_id]")
                 +:+ ".") false
      | Some scriptId =>
          let signingTarget := environment.(env_scripts) !! scriptId in
          let compiledTarget :=
            resolveScriptIdentifier data environment scriptId in
          match signingTarget, compiledTarget with
          | None, _ | _, ResolutionFalse =>
              Error ("Data signature tried to sign an unknown target script, "
                     +:+ quoted scriptId +:+ ".") false
          | Some _, ResolutionError message => Error message false
          | Some _, ResolvedScript bytecode =>
              let digest := sha256.(hash) bytecode in
              Success (sign privateKey digest)
          end
      end
  end.

(** [compilerOperationSigningSerializationFullBCH].  Behind its
    prerequisites both [operationData] and [sha256] are defined. *)
Definition compilerOperationSigningSerializationFullBCH
  : CompilerOperation :=
  compilerOperationRequires false
    [DataProperty.operationData] [EnvironmentProperty.sha256]
    (λ identifier data environment,
       let algorithmOrComponent := segments identifier !! 1%nat in
       let unknownPart := segments identifier !! 2%nat in
       match algorithmOrComponent with
       | None =>
           Some (Error ("Invalid signing serialization operation. Include the desired component or algorithm, e.g. "
                        +:+ quoted "signing_serialization.version" +:+ ".")
                       false)
       | Some algorithmOrComponent =>
           match unknownPart with
           | Some unknownPart =>
               Some (Error (unknownComponentError identifier unknownPart)
                           false)
           | None =>
               match
                 getSigningSerializationType algorithmOrComponent "full_"
               with
               | None =>
                   Some (Error ("Unknown signing serialization algorithm, "
                                +:+ quoted algorithmOrComponent +:+ ".")
                               false)
               | Some signingSerializationType =>
                   operationData ← data.(data_operationData);
                   sha256 ← environment.(env_sha256);
                   Some (Success
                           (generateSigningSerializationBCH
                              (signingSerializationArguments
                                 operationData sha256
                                 signingSerializationType)))
               end
           end
       end).

End CompilerBCH.

(** ** [compiler-operations.ts] *)

(** [CompilerDefaults], the two constants the operations read. *)
Record CompilerDefaults := {
  hdKeyAddressOffset : Z;
  hdKeyPrivateDerivationPath : string;
}.

(** [compilerOperationSigningSerializationCorrespondingOutput] *)
Definition compilerOperationSigningSerializationCorrespondingOutput
  : CompilerOperation :=
  compilerOperationRequires false [DataProperty.operationData] []
    (λ _ data _,
       operationData ← data.(data_operationData);
       match operationData.(correspondingOutput) with
       | None => Some (Success Uint8Array_empty)
       | Some correspondingOutput => Some (Success correspondingOutput)
       end).

(** [compilerOperationSigningSerializationCorrespondingOutputHash] *)
Definition compilerOperationSigningSerializationCorrespondingOutputHash
  : CompilerOperation :=
  compilerOperationRequires false
    [DataProperty.operationData] [EnvironmentProperty.sha256]
    (λ _ data environment,
       operationData ← data.(data_operationData);
       match operationData.(correspondingOutput) with
       | None => Some (Success Uint8Array_empty)
       | Some correspondingOutput =>
           sha256 ← environment.(env_sha256);
           Some (Success
                   (sha256.(hash) (sha256.(hash) correspondingOutput)))
       end).

(** [compilerOperationKeyPublicKeyCommon] *)
Definition compilerOperationKeyPublicKeyCommon : CompilerOperation :=
  attemptCompilerOperations
    [compilerOperationRequires true [DataProperty.keys] []
       (λ identifier data _,
          keys ← data.(data_keys);
          let variableId := variableIdOf identifier in
          match keys.(publicKeys) ≫= (.!! variableId) with
          | Some publicKey => Some (Success publicKey)
          | None => Some Skip
          end)]
    (compilerOperationRequires false
       [DataProperty.keys] [EnvironmentProperty.secp256k1]
       (λ identifier data environment,
          keys ← data.(data_keys);
          let variableId := variableIdOf identifier in
          match keys.(privateKeys) ≫= (.!! variableId) with
          | Some privateKey =>
              secp256k1 ← environment.(env_secp256k1);
              Some (Success
                      (secp256k1.(derivePublicKeyCompressed) privateKey))
          | None =>
              Some (Error
                      ("Identifier " +:+ quoted identifier
                       +:+ " refers to a public key, but no public or private keys for "
                       +:+ quoted variableId
                       +:+ " were provided in the compilation data.")
                      true)
          end)).

Section HdKeyPublicKey.

(** The imports of [compiler-operations.ts] that are not among the
    sources: the defaults, the HD node utilities of [key/hd-key.ts] and
    three helpers.  A decoded HD public key is given by its [node]. *)
Variable Defaults : CompilerDefaults.
Variable HdPublicNode : Type.
Variable publicKey : HdPublicNode → Uint8Array.
Variable decodeHdPublicKey :
  CompilationEnvironment → string → string + HdPublicNode.
Variable deriveHdPath :
  CompilationEnvironment → HdPublicNode → string → string + HdPublicNode.
Variable compilerOperationHelperUnknownEntity :
  string → string → CompilerOperationResult.
Variable compilerOperationHelperAddressIndex :
  string → CompilerOperationResult.
(** Arguments: [addressIndex], [entityHdPrivateKey], [entityId],
    [environment], [hdKey] (possibly [undefined]), [identifier]. *)
Variable compilerOperationHelperDeriveHdPrivateNode :
  Z → string → string → CompilationEnvironment → option HdKey → string →
  option CompilerOperationResult.

(** The [instancePath] computed on the public path. *)
Definition instancePathOf (hdKey : HdKey) (addressIndex : Z) : string :=
  let addressOffset :=
    default Defaults.(hdKeyAddressOffset) hdKey.(addressOffset) in
  let privateDerivationPath :=
    default Defaults.(hdKeyPrivateDerivationPath)
            hdKey.(privateDerivationPath) in
  let publicDerivationPath :=
    default (replace "m" "M" privateDerivationPath)
            hdKey.(publicDerivationPath) in
  let i := (addressIndex + addressOffset)%Z in
  replace "i" (Number_toString i) publicDerivationPath.

(** The final operation of [compilerOperationHdKeyPublicKeyCommon]. *)
Definition compilerOperationHdKeyPublicKeyDerive : CompilerOperation :=
  λ identifier data environment,
    hdKeys ← data.(data_hdKeys);
    let variableId := variableIdOf identifier in
    entityOwnership ← environment.(env_entityOwnership);
    match entityOwnership !! variableId with
    | None =>
        Some (compilerOperationHelperUnknownEntity identifier variableId)
    | Some entityId =>
        match hdKeys.(addressIndex) with
        | None => Some (compilerOperationHelperAddressIndex identifier)
        | Some addressIndex =>
            let entityHdPrivateKey :=
              hdKeys.(hdPrivateKeys) ≫= (.!! entityId) in
            variables ← environment.(env_variables);
            let hdKey := asHdKey <$> variables !! variableId in
            match entityHdPrivateKey with
            | Some entityHdPrivateKey =>
                privateResult ←
                  compilerOperationHelperDeriveHdPrivateNode
                    addressIndex entityHdPrivateKey entityId environment
                    hdKey identifier;
                match privateResult with
                | Error error recoverable =>
                    Some (Error error recoverable)
                | Success bytecode =>
                    secp256k1 ← environment.(env_secp256k1);
                    Some (Success
                            (secp256k1.(derivePublicKeyCompressed)
                               bytecode))
                | Skip => None (* the helper never skips *)
                end
            | None =>
                match hdKeys.(hdPublicKeys) ≫= (.!! entityId) with
                | None =>
                    Some (Error
                            ("Identifier " +:+ quoted identifier
                             +:+ " refers to an HdKey owned by "
                             +:+ quoted entityId
                             +:+ ", but an HD private key or HD public key for this entity was not provided in the compilation data.")
                            true)
                | Some entityHdPublicKey =>
                    hdKey ← hdKey;
                    let instancePath := instancePathOf hdKey addressIndex in
                    match decodeHdPublicKey environment entityHdPublicKey
                    with
                    | inl masterContents =>
                        Some (Error
                                ("Could not generate " +:+ quoted identifier
                                 +:+ " " +:+ endash
                                 +:+ " the HD public key provided for "
                                 +:+ quoted entityId
                                 +:+ " could not be decoded: "
                                 +:+ masterContents)
                                false)
                    | inr masterNode =>
                        match
                          deriveHdPath environment masterNode instancePath
                        with
                        | inl instanceNode =>
                            Some (Error
                                    ("Could not generate "
                                     +:+ quoted identifier
                                     +:+ " " +:+ endash +:+ " the path "
                                     +:+ quoted instancePath
                                     +:+ " could not be derived for entity "
                                     +:+ quoted entityId +:+ ": "
                                     +:+ instanceNode)
                                    false)
                        | inr instanceNode =>
                            Some (Success (publicKey instanceNode))
                        end
                    end
                end
            end
        end
    end.

(** [compilerOperationHdKeyPublicKeyCommon] *)
Definition compilerOperationHdKeyPublicKeyCommon : CompilerOperation :=
  attemptCompilerOperations
    [compilerOperationRequires true [DataProperty.hdKeys] []
       (λ identifier data _,
          hdKeys ← data.(data_hdKeys);
          let variableId := variableIdOf identifier in
          match hdKeys.(derivedPublicKeys) ≫= (.!! variableId) with
          | Some derivedPublicKey => Some (Success derivedPublicKey)
          | None => Some Skip
          end)]
    (compilerOperationRequires false
       [DataProperty.hdKeys]
       [EnvironmentProperty.entityOwnership; EnvironmentProperty.ripemd160;
        EnvironmentProperty.secp256k1; EnvironmentProperty.sha256;
        EnvironmentProperty.sha512; EnvironmentProperty.variables]
       compilerOperationHdKeyPublicKeyDerive).

End HdKeyPublicKey.

(** ** [compiler.ts] *)

(** An entity of a template: its variables, when it declares any. *)
Record AuthenticationTemplateEntity := {
  entity_variables : option (gmap string AuthenticationTemplateVariable);
}.

Record AuthenticationTemplateScript := { script : string }.

(** [AuthenticationTemplate]: the entities are the entries of
    [template.entities] in enumeration order. *)
Record AuthenticationTemplate := {
  template_entities : list (string * AuthenticationTemplateEntity);
  template_scripts : gmap string AuthenticationTemplateScript;
}.

(** [Object.entries], [Object.keys] and [Object.values] of a dictionary;
    the folds below do not depend on the enumeration order. *)
Definition Object_entries {V} (object : gmap string V) : list (string * V) :=
  map_to_list object.
Definition Object_keys {V} (object : gmap string V) : list string :=
  (map_to_list object).*1.

(** The object literal that spreads [all], then [object]. *)
Definition spread {V} (all object : gmap string V) : gmap string V :=
  object ∪ all.

(** The result of [authenticationTemplateToCompilationEnvironment]. *)
Record TemplateEnvironment := {
  entityOwnership : gmap string string;
  scripts : gmap string string;
  variables : gmap string AuthenticationTemplateVariable;
}.

(** [authenticationTemplateToCompilationEnvironment] *)
Definition authenticationTemplateToCompilationEnvironment
    (template : AuthenticationTemplate) : TemplateEnvironment :=
  let scripts :=
    foldl (λ all '(id, def), <[id := def.(script)]> all) ∅
          (Object_entries template.(template_scripts)) in
  let variables :=
    foldl (λ all entity, spread all (default ∅ entity.(entity_variables))) ∅
          (template.(template_entities).*2) in
  let entityOwnership :=
    foldl (λ all '(entityId, entity),
             spread all
               (foldl (λ entityVariables variableId,
                         <[variableId := entityId]> entityVariables)
                      ∅
                      (Object_keys (default ∅ entity.(entity_variables)))))
          ∅ template.(template_entities) in
  {| entityOwnership := entityOwnership;
     scripts := scripts;
     variables := variables |}.

(** ** Vocabulary of the properties *)

(** A segment of an identifier: a string without a dot. *)
Fixpoint dotless (s : string) : bool :=
  match s with
  | EmptyString => true
  | String c rest => negb (Ascii.eqb c dot) && dotless rest
  end.

(** The six recognized signing-serialization algorithm identifiers. *)
Definition recognizedAlgorithms : list string :=
  [Algo.all_outputs; Algo.all_outputs_single_input;
   Algo.corresponding_output; Algo.corresponding_output_single_input;
   Algo.no_outputs; Algo.no_outputs_single_input].

(** Every member of the flag enum fits a byte. *)
Definition flagsAreBytes (Flag : SigningSerializationFlag) : Prop :=
  (0 ≤ Flag.(all_outputs) < 256)%Z ∧ (0 ≤ Flag.(no_outputs) < 256)%Z ∧
  (0 ≤ Flag.(corresponding_output) < 256)%Z ∧
  (0 ≤ Flag.(fork_id) < 256)%Z ∧ (0 ≤ Flag.(single_input) < 256)%Z.

(** A signature identifier is malformed when it has a fourth segment, no
    third segment, or a third segment that is not a recognized
    algorithm. *)
Definition malformedSignatureIdentifier (identifier : string) : Prop :=
  is_Some (segments identifier !! 3%nat) ∨
  segments identifier !! 2%nat = None ∨
  ∃ algorithm, segments identifier !! 2%nat = Some algorithm ∧
               algorithm ∉ recognizedAlgorithms.

Definition fatalError (result : CompilerOperationResult) : Prop :=
  ∃ message, result = Error message false.

Definition recoverableError (result : CompilerOperationResult) : Prop :=
  ∃ message, result = Error message true.

(** The same for the outcome of an operation, which returned. *)
Definition fatalError' (outcome : option CompilerOperationResult) : Prop :=
  ∃ message, outcome = Some (Error message false).

Definition recoverableError' (outcome : option CompilerOperationResult)
  : Prop :=
  ∃ message, outcome = Some (Error message true).

(** [keys.publicKeys[variableId]] and [keys.privateKeys[variableId]] of the
    compilation data, [None] when any part of the path is absent. *)
Definition providedPublicKey (data : CompilationData) (variableId : string)
  : option Uint8Array :=
  match data.(data_keys) with
  | Some keys =>
      match keys.(publicKeys) with
      | Some publicKeys => publicKeys !! variableId
      | None => None
      end
  | None => None
  end.

Definition providedPrivateKey (data : CompilationData) (variableId : string)
  : option Uint8Array :=
  match data.(data_keys) with
  | Some keys =>
      match keys.(privateKeys) with
      | Some privateKeys => privateKeys !! variableId
      | None => None
      end
  | None => None
  end.

(** The variables an entity declares, none when the property is absent. *)
Definition declared (entity : AuthenticationTemplateEntity)
  : gmap string AuthenticationTemplateVariable :=
  default ∅ entity.(entity_variables).

(** The two reducer callbacks of the adapter over the entities, named. *)
Definition variablesStep
    (all : gmap string AuthenticationTemplateVariable)
    (entity : AuthenticationTemplateEntity)
  : gmap string AuthenticationTemplateVariable :=
  spread all (default ∅ entity.(entity_variables)).

Definition ownershipStep
    (all : gmap string string)
    (entry : string * AuthenticationTemplateEntity) : gmap string string :=
  let '(entityId, entity) := entry in
  spread all
    (foldl (λ entityVariables variableId,
              <[variableId := entityId]> entityVariables)
           ∅ (Object_keys (default ∅ entity.(entity_variables)))).

(** ** [compiler-bch.ts]: the operations of keys *)

(** A key of [Secp256k1], as [secp256k1Method] names one. *)
Module Secp256k1Method.
Inductive t :=
| derivePublicKeyCompressed | signMessageHashDER | signMessageHashSchnorr.
End Secp256k1Method.

(** [secp256k1[secp256k1Method]], called as [sign] with a private key and a
    message hash; a method of one parameter ignores the second argument. *)
Definition secp256k1Member
    (secp256k1 : Secp256k1) (secp256k1Method : Secp256k1Method.t)
  : Uint8Array → Uint8Array → Uint8Array :=
  match secp256k1Method with
  | Secp256k1Method.derivePublicKeyCompressed =>
      λ privateKey _, secp256k1.(derivePublicKeyCompressed) privateKey
  | Secp256k1Method.signMessageHashDER => secp256k1.(signMessageHashDER)
  | Secp256k1Method.signMessageHashSchnorr =>
      secp256k1.(signMessageHashSchnorr)
  end.

(** The error of the Key operations for a private key that is not
    provided. *)
Definition missingPrivateKeyError (identifier variableId : string) : string :=
  "Identifier " +:+ quoted identifier
  +:+ " refers to a Key, but a private key for " +:+ quoted variableId
  +:+ " (or an existing signature) was not provided in the compilation data.".

Section KeyOperationsBCH.

(** The imports that are not among the sources: those of [CompilerBCH]
    above, the two precomputed-signature operations and the private HD
    derivation of [compiler-operation-helpers.ts]. *)
Variable Flag : SigningSerializationFlag.
Variable generateSigningSerializationBCH :
  SigningSerializationArguments → Uint8Array.
Variable resolveScriptIdentifier :
  CompilationData → CompilationEnvironment → string → ScriptResolution.
Variable compilerOperationKeyPrecomputedSignature : CompilerOperation.
Variable compilerOperationHdKeyPrecomputedSignature : CompilerOperation.
(** Arguments: [environment], [hdKeys], [identifier]. *)
Variable compilerOperationHelperDeriveHdKeyPrivate :
  CompilationEnvironment → CompilationDataHdKeys → string →
  CompilerOperationResult.

(** The [operation] of [compilerOperationHelperKeySignatureBCH].  Behind
    the prerequisites of the operation [operationData], [sha256] and
    [secp256k1] are defined. *)
Definition keySignatureOperationBCH
    (operationName : string) (secp256k1Method : Secp256k1Method.t)
  : CompilerOperation :=
  λ identifier data environment,
    keys ← data.(data_keys);
    let variableId := variableIdOf identifier in
    match keys.(privateKeys) ≫= (.!! variableId) with
    | None =>
        Some (Error (missingPrivateKeyError identifier variableId) true)
    | Some privateKey =>
        secp256k1 ← environment.(env_secp256k1);
        operationData ← data.(data_operationData);
        sha256 ← environment.(env_sha256);
        Some (compilerOperationHelperComputeSignatureBCH
                Flag generateSigningSerializationBCH
                identifier operationData operationName privateKey sha256
                (secp256k1Member secp256k1 secp256k1Method))
    end.

(** [compilerOperationHelperKeySignatureBCH] *)
Definition compilerOperationHelperKeySignatureBCH
    (operationName : string) (secp256k1Method : Secp256k1Method.t)
  : CompilerOperation :=
  attemptCompilerOperations
    [compilerOperationKeyPrecomputedSignature]
    (compilerOperationRequires false
       [DataProperty.keys; DataProperty.operationData]
       [EnvironmentProperty.sha256; EnvironmentProperty.secp256k1]
       (keySignatureOperationBCH operationName secp256k1Method)).

Definition compilerOperationKeyEcdsaSignatureBCH : CompilerOperation :=
  compilerOperationHelperKeySignatureBCH
    "signature" Secp256k1Method.signMessageHashDER.
Definition compilerOperationKeySchnorrSignatureBCH : CompilerOperation :=
  compilerOperationHelperKeySignatureBCH
    "schnorr_signature" Secp256k1Method.signMessageHashSchnorr.

(** The [operation] of [compilerOperationHelperHdKeySignatureBCH].  The
    derivation helper returns a success or an error. *)
Definition hdKeySignatureOperationBCH
    (operationName : string) (secp256k1Method : Secp256k1Method.t)
  : CompilerOperation :=
  λ identifier data environment,
    hdKeys ← data.(data_hdKeys);
    let derivationResult :=
      compilerOperationHelperDeriveHdKeyPrivate
        environment hdKeys identifier in
    match derivationResult with
    | Error error recoverable => Some (Error error recoverable)
    | Success bytecode =>
        secp256k1 ← environment.(env_secp256k1);
        operationData ← data.(data_operationData);
        sha256 ← environment.(env_sha256);
        Some (compilerOperationHelperComputeSignatureBCH
                Flag generateSigningSerializationBCH
                identifier operationData operationName bytecode sha256
                (secp256k1Member secp256k1 secp256k1Method))
    | Skip => None (* the helper never skips *)
    end.

(** [compilerOperationHelperHdKeySignatureBCH] *)
Definition compilerOperationHelperHdKeySignatureBCH
    (operationName : string) (secp256k1Method : Secp256k1Method.t)
  : CompilerOperation :=
  attemptCompilerOperations
    [compilerOperationHdKeyPrecomputedSignature]
    (compilerOperationRequires false
       [DataProperty.hdKeys; DataProperty.operationData]
       [EnvironmentProperty.entityOwnership; EnvironmentProperty.ripemd160;
        EnvironmentProperty.secp256k1; EnvironmentProperty.sha256;
        EnvironmentProperty.sha512; EnvironmentProperty.variables]
       (hdKeySignatureOperationBCH operationName secp256k1Method)).

Definition compilerOperationHdKeyEcdsaSignatureBCH : CompilerOperation :=
  compilerOperationHelperHdKeySignatureBCH
    "signature" Secp256k1Method.signMessageHashDER.
Definition compilerOperationHdKeySchnorrSignatureBCH : CompilerOperation :=
  compilerOperationHelperHdKeySignatureBCH
    "schnorr_signature" Secp256k1Method.signMessageHashSchnorr.

(** The [operation] of [compilerOperationHelperKeyDataSignatureBCH]. *)
Definition keyDataSignatureOperationBCH
    (operationName : string) (secp256k1Method : Secp256k1Method.t)
  : CompilerOperation :=
  λ identifier data environment,
    keys ← data.(data_keys);
    let variableId := variableIdOf identifier in
    match keys.(privateKeys) ≫= (.!! variableId) with
    | None =>
        Some (Error (missingPrivateKeyError identifier variableId) true)
    | Some privateKey =>
        secp256k1 ← environment.(env_secp256k1);
        sha256 ← environment.(env_sha256);
        Some (compilerOperationHelperComputeDataSignatureBCH
                resolveScriptIdentifier data environment identifier
                operationName privateKey sha256
                (secp256k1Member secp256k1 secp256k1Method))
    end.

(** [compilerOperationHelperKeyDataSignatureBCH] *)
Definition compilerOperationHelperKeyDataSignatureBCH
    (operationName : string) (secp256k1Method : Secp256k1Method.t)
  : CompilerOperation :=
  attemptCompilerOperations
    [compilerOperationKeyPrecomputedSignature]
    (compilerOperationRequires false
       [DataProperty.keys]
       [EnvironmentProperty.sha256; EnvironmentProperty.secp256k1]
       (keyDataSignatureOperationBCH operationName secp256k1Method)).

Definition compilerOperationKeyEcdsaDataSignatureBCH : CompilerOperation :=
  compilerOperationHelperKeyDataSignatureBCH
    "data_signature" Secp256k1Method.signMessageHashDER.
Definition compilerOperationKeySchnorrDataSignatureBCH : CompilerOperation :=
  compilerOperationHelperKeyDataSignatureBCH
    "schnorr_data_signature" Secp256k1Method.signMessageHashSchnorr.

(** The [operation] of [compilerOperationHelperHdKeyDataSignatureBCH]. *)
Definition hdKeyDataSignatureOperationBCH
    (operationName : string) (secp256k1Method : Secp256k1Method.t)
  : CompilerOperation :=
  λ identifier data environment,
    hdKeys ← data.(data_hdKeys);
    let derivationResult :=
      compilerOperationHelperDeriveHdKeyPrivate
        environment hdKeys identifier in
    match derivationResult with
    | Error error recoverable => Some (Error error recoverable)
    | Success bytecode =>
        secp256k1 ← environment.(env_secp256k1);
        sha256 ← environment.(env_sha256);
        Some (compilerOperationHelperComputeDataSignatureBCH
                resolveScriptIdentifier data environment identifier
                operationName bytecode sha256
                (secp256k1Member secp256k1 secp256k1Method))
    | Skip => None (* the helper never skips *)
    end.

(** [compilerOperationHelperHdKeyDataSignatureBCH] *)
Definition compilerOperationHelperHdKeyDataSignatureBCH
    (operationName : string) (secp256k1Method : Secp256k1Method.t)
  : CompilerOperation :=
  attemptCompilerOperations
    [compilerOperationHdKeyPrecomputedSignature]
    (compilerOperationRequires false
       [DataProperty.hdKeys]
       [EnvironmentProperty.entityOwnership; EnvironmentProperty.ripemd160;
        EnvironmentProperty.secp256k1; EnvironmentProperty.sha256;
        EnvironmentProperty.sha512; EnvironmentProperty.variables]
       (hdKeyDataSignatureOperationBCH operationName secp256k1Method)).

Definition compilerOperationHdKeyEcdsaDataSignatureBCH : CompilerOperation :=
  compilerOperationHelperHdKeyDataSignatureBCH
    "data_signature" Secp256k1Method.signMessageHashDER.
Definition compilerOperationHdKeySchnorrDataSignatureBCH
  : CompilerOperation :=
  compilerOperationHelperHdKeyDataSignatureBCH
    "schnorr_data_signature" Secp256k1Method.signMessageHashSchnorr.

End KeyOperationsBCH.

(** ** [compiler-operations.ts]: address data and wallet data *)

(** The [operation] of [compilerOperationAddressData]: the whole identifier
    is the key. *)
Definition addressDataOperation : CompilerOperation :=
  λ identifier data _,
    addressData ← data.(data_addressData);
    match addressData !! identifier with
    | Some bytecode => Some (Success bytecode)
    | None =>
        Some (Error
                ("Identifier " +:+ quoted identifier
                 +:+ " refers to an AddressData, but " +:+ quoted identifier
                 +:+ " was not provided in the CompilationData "
                 +:+ quoted "addressData" +:+ ".")
                true)
    end.

(** [compilerOperationAddressData] *)
Definition compilerOperationAddressData : CompilerOperation :=
  compilerOperationRequires false [DataProperty.addressData] []
    addressDataOperation.

(** The [operation] of [compilerOperationWalletData]. *)
Definition walletDataOperation : CompilerOperation :=
  λ identifier data _,
    walletData ← data.(data_walletData);
    match walletData !! identifier with
    | Some bytecode => Some (Success bytecode)
    | None =>
        Some (Error
                ("Identifier " +:+ quoted identifier
                 +:+ " refers to a WalletData, but " +:+ quoted identifier
                 +:+ " was not provided in the CompilationData "
                 +:+ quoted "walletData" +:+ ".")
                true)
    end.

(** [compilerOperationWalletData] *)
Definition compilerOperationWalletData : CompilerOperation :=
  compilerOperationRequires false [DataProperty.walletData] []
    walletDataOperation.

(** ** Vocabulary of the further properties *)

(** A string without the character [c]. *)
Fixpoint lacks (c : ascii) (s : string) : bool :=
  match s with
  | EmptyString => true
  | String c' rest => negb (Ascii.eqb c' c) && lacks c rest
  end.

(** A template in which no two entities declare the same variable id. *)
Fixpoint unambiguous
    (entities : list (string * AuthenticationTemplateEntity)) : Prop :=
  match entities with
  | [] => True
  | entry :: rest =>
      (∀ other, other ∈ rest → declared entry.2 ##ₘ declared other.2) ∧
      unambiguous rest
  end.

(** ** Sample values *)

Module Sample.

(** Modelled from the spec: the members of [SigningSerializationFlag],
    which is not among the sources.  Scenario S3 gives [ALL = 0x01] and
    [FORK_ID = 0x40]; the others are the BCH signature-hash-type values
    [NONE = 0x02], [SINGLE = 0x03] and [SINGLE_INPUT = 0x80]. *)
Definition Flag : SigningSerializationFlag :=
  {| all_outputs := 0x01; no_outputs := 0x02; corresponding_output := 0x03;
     fork_id := 0x40; single_input := 0x80 |}.

(** Stand-ins for the cryptographic back ends. *)
Definition sha256 : Sha256 := {| hash := λ input, x00 :: input |}.
Definition secp256k1 : Secp256k1 :=
  {| derivePublicKeyCompressed := λ privateKey, x02 :: privateKey;
     signMessageHashDER := λ privateKey messageHash,
       x30 :: privateKey ++ messageHash;
     signMessageHashSchnorr := λ privateKey messageHash,
       x53 :: privateKey ++ messageHash |}.
Definition generateSigningSerializationBCH
    (arguments : SigningSerializationArguments) : Uint8Array :=
  arguments.(ss_coveredBytecode) ++ arguments.(ss_signingSerializationType).

Definition operationData : CompilerOperationDataCommon :=
  {| correspondingOutput := None;
     coveredBytecode := [x51];
     locktime := 0;
     outpointIndex := 0;
     outpointTransactionHash := [];
     outputValue := 1000;
     sequenceNumber := 0;
     transactionOutpoints := [];
     transactionOutputs := [];
     transactionSequenceNumbers := [];
     version := 2 |}.

Definition privateKey : Uint8Array := [x01; x01].
Definition publicKey : Uint8Array := [x02; xaa].

Definition noData : CompilationData :=
  {| data_addressData := None; data_currentBlockHeight := None;
     data_currentBlockTime := None; data_hdKeys := None;
     data_keys := None; data_operationData := None;
     data_walletData := None |}.

Definition noKeys : CompilationDataKeys :=
  {| privateKeys := None; publicKeys := None; signatures := None |}.

(** Data with [keys: {}]. *)
Definition emptyKeysData : CompilationData :=
  {| data_addressData := None; data_currentBlockHeight := None;
     data_currentBlockTime := None; data_hdKeys := None;
     data_keys := Some noKeys; data_operationData := None;
     data_walletData := None |}.

(** Data with [keys.publicKeys.alice] only. *)
Definition publicKeyData : CompilationData :=
  {| data_addressData := None; data_currentBlockHeight := None;
     data_currentBlockTime := None; data_hdKeys := None;
     data_keys :=
       Some {| privateKeys := None;
               publicKeys := Some {["alice" := publicKey]};
               signatures := None |};
     data_operationData := None; data_walletData := None |}.

(** Data with the operation data only. *)
Definition operationOnlyData : CompilationData :=
  {| data_addressData := None; data_currentBlockHeight := None;
     data_currentBlockTime := None; data_hdKeys := None;
     data_keys := None; data_operationData := Some operationData;
     data_walletData := None |}.

(** An environment without any back end, and one with all of them. *)
Definition bareEnvironment : CompilationEnvironment :=
  {| env_entityOwnership := None; env_ripemd160 := None;
     env_scripts := {["lock" := "OP_1"]}; env_secp256k1 := None;
     env_sha256 := None; env_sha512 := None; env_variables := None |}.

Definition fullEnvironment : CompilationEnvironment :=
  {| env_entityOwnership := Some {["alice" := "owner"]};
     env_ripemd160 := Some ();
     env_scripts := {["lock" := "OP_1"]};
     env_secp256k1 := Some secp256k1;
     env_sha256 := Some sha256; env_sha512 := Some ();
     env_variables :=
       Some {["alice" :=
                VariableHdKey {| addressOffset := Some 2%Z;
                                 privateDerivationPath := Some "m/0/i";
                                 publicDerivationPath := None |}]} |}.

Definition resolveScriptIdentifier
    (_ : CompilationData) (environment : CompilationEnvironment)
    (identifier : string) : ScriptResolution :=
  match environment.(env_scripts) !! identifier with
  | Some _ => ResolvedScript [x51]
  | None => ResolutionFalse
  end.

(** Data for the public path of an HD key: an address index and the HD
    public key of the owning entity. *)
Definition hdKeysData : CompilationData :=
  {| data_addressData := None; data_currentBlockHeight := None;
     data_currentBlockTime := None;
     data_hdKeys :=
       Some {| addressIndex := Some 3%Z; derivedPublicKeys := None;
               hdPrivateKeys := None;
               hdPublicKeys := Some {["owner" := "xpub"]} |};
     data_keys := None; data_operationData := None;
     data_walletData := None |}.

(** Stand-ins for the imports of the HD operation.  A node is the path
    that leads to it, and its public key the bytes of that path. *)
Definition Defaults : CompilerDefaults :=
  {| hdKeyAddressOffset := 0; hdKeyPrivateDerivationPath := "m/i" |}.
Definition nodePublicKey (node : string) : Uint8Array :=
  list_byte_of_string node.
Definition decodeHdPublicKey
    (_ : CompilationEnvironment) (_ : string) : string + string :=
  inr "M".
Definition deriveHdPath
    (_ : CompilationEnvironment) (_ : string) (path : string)
  : string + string :=
  inr path.
Definition unknownEntity (_ _ : string) : CompilerOperationResult :=
  Error "unknown entity" false.
Definition missingAddressIndex (_ : string) : CompilerOperationResult :=
  Error "missing address index" false.
Definition derivePrivateNode
    (_ : Z) (_ _ : string) (_ : CompilationEnvironment) (_ : option HdKey)
    (_ : string) : option CompilerOperationResult :=
  Some (Error "no private derivation" false).

(** A template in which two entities declare the variable [shared]. *)
Definition template : AuthenticationTemplate :=
  {| template_entities :=
       [("first",
         {| entity_variables :=
              Some {["shared" := VariableKey; "own" := VariableWalletData]} |});
        ("observer", {| entity_variables := None |});
        ("second",
         {| entity_variables :=
              Some {["shared" := VariableAddressData]} |})];
     template_scripts := {["lock" := {| script := "OP_1" |}]} |}.

(** Data with the private key of [alice] and the operation data. *)
Definition signingData : CompilationData :=
  {| data_addressData := None; data_currentBlockHeight := None;
     data_currentBlockTime := None; data_hdKeys := None;
     data_keys :=
       Some {| privateKeys := Some {["alice" := privateKey]};
               publicKeys := None; signatures := None |};
     data_operationData := Some operationData;
     data_walletData := None |}.

(** Data with HD keys and the operation data. *)
Definition hdSigningData : CompilationData :=
  {| data_addressData := None; data_currentBlockHeight := None;
     data_currentBlockTime := None;
     data_hdKeys :=
       Some {| addressIndex := Some 3%Z; derivedPublicKeys := None;
               hdPrivateKeys := Some {["owner" := "xprv"]};
               hdPublicKeys := None |};
     data_keys := None; data_operationData := Some operationData;
     data_walletData := None |}.

(** Stand-ins for [compilerOperationHelperDeriveHdKeyPrivate]. *)
Definition deriveHdKeyPrivate
    (_ : CompilationEnvironment) (_ : CompilationDataHdKeys) (_ : string)
  : CompilerOperationResult :=
  Success privateKey.
Definition failingDeriveHdKeyPrivate
    (_ : CompilationEnvironment) (_ : CompilationDataHdKeys) (_ : string)
  : CompilerOperationResult :=
  Error "no HD private key" true.

(** HD data without an address index, and with an index but no HD key of
    any entity. *)
Definition noIndexData : CompilationData :=
  {| data_addressData := None; data_currentBlockHeight := None;
     data_currentBlockTime := None;
     data_hdKeys :=
       Some {| addressIndex := None; derivedPublicKeys := None;
               hdPrivateKeys := None;
               hdPublicKeys := Some {["owner" := "xpub"]} |};
     data_keys := None; data_operationData := None;
     data_walletData := None |}.

Definition hdNoKeysData : CompilationData :=
  {| data_addressData := None; data_currentBlockHeight := None;
     data_currentBlockTime := None;
     data_hdKeys :=
       Some {| addressIndex := Some 3%Z; derivedPublicKeys := None;
               hdPrivateKeys := None; hdPublicKeys := None |};
     data_keys := None; data_operationData := None;
     data_walletData := None |}.

Definition failingDecodeHdPublicKey
    (_ : CompilationEnvironment) (_ : string) : string + string :=
  inl "bad checksum".

(** A template without a shared variable id, and the same with its
    entities in the other order. *)
Definition plainTemplate : AuthenticationTemplate :=
  {| template_entities :=
       [("first", {| entity_variables := Some {["own" := VariableKey]} |});
        ("second",
         {| entity_variables := Some {["other" := VariableWalletData]} |})];
     template_scripts := {["lock" := {| script := "OP_1" |}]} |}.

Definition plainTemplateReordered : AuthenticationTemplate :=
  {| template_entities :=
       [("second",
         {| entity_variables := Some {["other" := VariableWalletData]} |});
        ("first", {| entity_variables := Some {["own" := VariableKey]} |})];
     template_scripts := {["lock" := {| script := "OP_1" |}]} |}.

(** Data with one address datum, under a dotted key. *)
Definition addressDataOnly : CompilationData :=
  {| data_addressData := Some {["nonce.value" := [x07]]};
     data_currentBlockHeight := None; data_currentBlockTime := None;
     data_hdKeys := None; data_keys := None; data_operationData := None;
     data_walletData := Some ∅ |}.

End Sample.

(** ** Strings and segments *)

Lemma dotless_cons c s :
  dotless (String c s) = true ↔ c ≠ dot ∧ dotless s = true.
Proof.
  simpl. rewrite andb_true_iff, negb_true_iff, Ascii.eqb_neq. tauto.
Qed.

Lemma split_dotless s : dotless s = true → split dot s = [s].
Proof.
  induction s as [|c s IH]; [done|].
  intros [Hc Hs]%dotless_cons. simpl.
  apply Ascii.eqb_neq in Hc as ->. by rewrite (IH Hs).
Qed.

Lemma split_segment a rest :
  dotless a = true →
  split dot (a +:+ String dot rest) = a :: split dot rest.
Proof.
  induction a as [|c a IH]; simpl.
  - done.
  - intros [Hc Ha]%andb_true_iff. rewrite (IH Ha).
    apply negb_true_iff in Hc as ->. done.
Qed.

Lemma segments_nonempty identifier : segments identifier ≠ [].
Proof.
  unfold segments. destruct identifier as [|c s]; simpl; [done|].
  destruct (Ascii.eqb c dot); [done|]. by destruct (split dot s).
Qed.

Lemma segments_one a : dotless a = true → segments a = [a].
Proof. apply split_dotless. Qed.

Lemma segments_two a b :
  dotless a = true → dotless b = true →
  segments (a +:+ "." +:+ b) = [a; b].
Proof.
  intros Ha Hb. unfold segments.
  change ("." +:+ b) with (String dot b).
  by rewrite (split_segment _ _ Ha), (split_dotless _ Hb).
Qed.

Lemma segments_three a b c :
  dotless a = true → dotless b = true → dotless c = true →
  segments (a +:+ "." +:+ b +:+ "." +:+ c) = [a; b; c].
Proof.
  intros Ha Hb Hc. unfold segments.
  change ("." +:+ b +:+ "." +:+ c) with (String dot (b +:+ String dot c)).
  by rewrite (split_segment _ _ Ha), (split_segment _ _ Hb),
    (split_dotless _ Hc).
Qed.

Lemma variableIdOf_prefix a rest :
  dotless a = true → variableIdOf (a +:+ "." +:+ rest) = a.
Proof.
  intros Ha. unfold variableIdOf, segments.
  change ("." +:+ rest) with (String dot rest).
  by rewrite (split_segment _ _ Ha).
Qed.

Lemma recognized_dotless algorithm :
  algorithm ∈ recognizedAlgorithms → dotless algorithm = true.
Proof.
  unfold recognizedAlgorithms. rewrite !elem_of_cons, elem_of_nil.
  intros [->|[->|[->|[->|[->|[->|[]]]]]]]; reflexivity.
Qed.

Lemma append_eqb_prefix prefix a b :
  String.eqb (prefix +:+ a) (prefix +:+ b) = String.eqb a b.
Proof.
  destruct (String.eqb_spec a b) as [->|Hne]; [apply String.eqb_refl|].
  apply String.eqb_neq. intros H. apply Hne. clear Hne.
  induction prefix as [|c prefix IH]; [done|].
  apply IH. by injection H.
Qed.

(** ** Bytes and the bitwise OR *)

Section Bytes.

Local Open Scope Z_scope.

Lemma ToInt32_small n : (0 ≤ n < 2 ^ 31)%Z → ToInt32 n = n.
Proof.
intros Hn. unfold ToInt32.
rewrite Z.mod_small by lia.
destruct (Z.leb_spec (2 ^ 31) n); lia.
Qed.

Lemma log2_byte a : (0 ≤ a < 256)%Z → (Z.log2 a < 8)%Z.
Proof.
intros [H0 H1]. destruct (Z.eq_dec a 0) as [->|Hne]; [done|].
apply Z.log2_lt_pow2; lia.
Qed.

Lemma lor_byte a b :
(0 ≤ a < 256)%Z → (0 ≤ b < 256)%Z → (0 ≤ Z.lor a b < 256)%Z.
Proof.
intros Ha Hb.
assert (0 ≤ Z.lor a b)%Z as Hnonneg by (apply Z.lor_nonneg; lia).
split; [done|].
destruct (Z.eq_dec (Z.lor a b) 0) as [->|Hne]; [done|].
change 256%Z with (2 ^ 8)%Z. apply Z.log2_lt_pow2; [lia|].
rewrite Z.log2_lor by lia.
pose proof (log2_byte a Ha). pose proof (log2_byte b Hb). lia.
Qed.

Lemma bitor_byte a b :
(0 ≤ a < 256)%Z → (0 ≤ b < 256)%Z → bitor a b = Z.lor a b.
Proof.
intros Ha Hb. unfold bitor.
rewrite (ToInt32_small a), (ToInt32_small b) by lia.
pose proof (lor_byte a b Ha Hb). apply ToInt32_small. lia.
Qed.

Lemma byte_value_ToUint8 n : (0 ≤ n < 256)%Z → byte_value (ToUint8 n) = n.
Proof.
intros Hn. unfold byte_value, ToUint8.
rewrite Z.mod_small by lia.
destruct (Byte.of_N (Z.to_N n)) as [b|] eqn:Hb.
- apply Byte.to_of_N in Hb. rewrite Hb. lia.
- apply Byte.of_N_None_iff in Hb. lia.
Qed.

Lemma sighash_byte_two a b :
(0 ≤ a < 256)%Z → (0 ≤ b < 256)%Z →
byte_value <$> Uint8Array_of (bitor a b) = [Z.lor a b].
Proof.
intros Ha Hb. unfold Uint8Array_of. simpl.
rewrite bitor_byte, byte_value_ToUint8; auto using lor_byte.
Qed.

Lemma sighash_byte_three a b c :
(0 ≤ a < 256)%Z → (0 ≤ b < 256)%Z → (0 ≤ c < 256)%Z →
byte_value <$> Uint8Array_of (bitor (bitor a b) c)
= [Z.lor (Z.lor a b) c].
Proof.
intros Ha Hb Hc. rewrite (bitor_byte a b) by done.
apply sighash_byte_two; auto using lor_byte.
Qed.

End Bytes.

(** ** The algorithm table *)

Lemma getSigningSerializationType_recognized Flag algorithm prefix :
  algorithm ∈ recognizedAlgorithms →
  ∃ sighash,
    getSigningSerializationType Flag (prefix +:+ algorithm) prefix
    = Some [sighash].
Proof.
  unfold recognizedAlgorithms. rewrite !elem_of_cons, elem_of_nil.
  unfold getSigningSerializationType. rewrite !append_eqb_prefix.
  intros [->|[->|[->|[->|[->|[->|[]]]]]]]; simpl; eauto.
Qed.

Lemma getSigningSerializationType_unrecognized Flag algorithm prefix :
  algorithm ∉ recognizedAlgorithms →
  getSigningSerializationType Flag (prefix +:+ algorithm) prefix = None.
Proof.
  unfold recognizedAlgorithms. rewrite !not_elem_of_cons.
  intros (H1 & H2 & H3 & H4 & H5 & H6 & _).
  unfold getSigningSerializationType. rewrite !append_eqb_prefix.
  apply String.eqb_neq in H1 as ->, H2 as ->, H3 as ->, H4 as ->,
    H5 as ->, H6 as ->.
  done.
Qed.

Lemma getSigningSerializationType_Some_inv Flag algorithm bytes :
  getSigningSerializationType Flag algorithm EmptyString = Some bytes →
  algorithm ∈ recognizedAlgorithms.
Proof.
  intros Hsome.
  destruct (decide (algorithm ∈ recognizedAlgorithms)) as [|Hnot]; [done|].
  pose proof (getSigningSerializationType_unrecognized
                Flag algorithm EmptyString Hnot) as Hnone.
  change (EmptyString +:+ algorithm) with algorithm in Hnone. congruence.
Qed.

(** C2.  With flags that fit a byte, [getSigningSerializationType] maps each
    of the six algorithm identifiers to the single byte whose value is the
    bitwise OR of the flags of the specification's table, and every other
    string to [undefined]. *)
Theorem getSigningSerializationType_table (Flag : SigningSerializationFlag) :
  flagsAreBytes Flag →
  let sighash algorithm :=
    fmap (M := list) byte_value
      <$> getSigningSerializationType Flag algorithm EmptyString in
  sighash "all_outputs"
  = Some [Z.lor Flag.(all_outputs) Flag.(fork_id)] ∧
  sighash "all_outputs_single_input"
  = Some [Z.lor (Z.lor Flag.(all_outputs) Flag.(single_input))
                Flag.(fork_id)] ∧
  sighash "corresponding_output"
  = Some [Z.lor Flag.(corresponding_output) Flag.(fork_id)] ∧
  sighash "corresponding_output_single_input"
  = Some [Z.lor (Z.lor Flag.(corresponding_output) Flag.(single_input))
                Flag.(fork_id)] ∧
  sighash "no_outputs"
  = Some [Z.lor Flag.(no_outputs) Flag.(fork_id)] ∧
  sighash "no_outputs_single_input"
  = Some [Z.lor (Z.lor Flag.(no_outputs) Flag.(single_input))
                Flag.(fork_id)] ∧
  ∀ other, other ∉ recognizedAlgorithms →
           getSigningSerializationType Flag other EmptyString = None.
Proof.
  intros (Hall & Hnone & Hsingle & Hfork & Hinput) sighash.
  subst sighash. unfold getSigningSerializationType. cbn [String.eqb].
  repeat split;
    try (simpl; f_equal;
         first [by apply sighash_byte_two | by apply sighash_byte_three]).
  intros other Hother.
  exact (getSigningSerializationType_unrecognized Flag other EmptyString
           Hother).
Qed.

Lemma getSigningSerializationType_table_witness :
  flagsAreBytes Sample.Flag ∧
  fmap (M := list) byte_value
    <$> getSigningSerializationType Sample.Flag "all_outputs" EmptyString
  = Some [65%Z] ∧
  getSigningSerializationType Sample.Flag "unknown_algo" EmptyString = None.
Proof.
  assert (flagsAreBytes Sample.Flag) as Hbytes
    by (unfold flagsAreBytes; simpl; lia).
  split; [exact Hbytes|].
  destruct (getSigningSerializationType_table Sample.Flag Hbytes)
    as (Hall & _ & _ & _ & _ & _ & Hother).
  split; [exact Hall|].
  apply Hother. unfold recognizedAlgorithms.
  rewrite !not_elem_of_cons. repeat split; try discriminate.
  apply not_elem_of_nil.
Defined.

(** ** Signatures *)

Section Signatures.

Variable Flag : SigningSerializationFlag.
Variable generateSigningSerializationBCH :
  SigningSerializationArguments → Uint8Array.

(** The three outcomes of the identifier checks, by the shape of the
    segments. *)
Lemma computeSignature_unknown
    identifier unknown operationData operationName privateKey sha256 sign :
  segments identifier !! 3%nat = Some unknown →
  compilerOperationHelperComputeSignatureBCH
    Flag generateSigningSerializationBCH
    identifier operationData operationName privateKey sha256 sign
  = Error (unknownComponentError identifier unknown) false.
Proof.
  intros Hunknown. unfold compilerOperationHelperComputeSignatureBCH. by rewrite Hunknown.
Qed.

Lemma computeSignature_missing
    identifier operationData operationName privateKey sha256 sign :
  segments identifier !! 3%nat = None →
  segments identifier !! 2%nat = None →
  compilerOperationHelperComputeSignatureBCH
    Flag generateSigningSerializationBCH
    identifier operationData operationName privateKey sha256 sign
  = Error ("Invalid signature identifier. Signatures must be of the form: "
           +:+ quoted ("[variable_id]." +:+ operationName
                       +:+ ".[signing_serialization_type]")
           +:+ ".") false.
Proof.
  intros Hunknown Halgorithm. unfold compilerOperationHelperComputeSignatureBCH.
  by rewrite Hunknown, Halgorithm.
Qed.

Lemma computeSignature_unrecognized
    identifier algorithm operationData operationName privateKey sha256
    sign :
  segments identifier !! 3%nat = None →
  segments identifier !! 2%nat = Some algorithm →
  algorithm ∉ recognizedAlgorithms →
  compilerOperationHelperComputeSignatureBCH
    Flag generateSigningSerializationBCH
    identifier operationData operationName privateKey sha256 sign
  = Error ("Unknown signing serialization algorithm, "
           +:+ quoted algorithm +:+ ".") false.
Proof.
  intros Hunknown Halgorithm Hnot. unfold compilerOperationHelperComputeSignatureBCH.
  rewrite Hunknown, Halgorithm.
  pose proof (getSigningSerializationType_unrecognized
                Flag algorithm EmptyString Hnot) as Hnone.
  change (EmptyString +:+ algorithm) with algorithm in Hnone.
  by rewrite Hnone.
Qed.

Lemma computeSignature_recognized
    identifier algorithm sighash operationData operationName privateKey
    sha256 sign :
  segments identifier !! 3%nat = None →
  segments identifier !! 2%nat = Some algorithm →
  getSigningSerializationType Flag algorithm EmptyString = Some [sighash] →
  compilerOperationHelperComputeSignatureBCH
    Flag generateSigningSerializationBCH
    identifier operationData operationName privateKey sha256 sign
  = Success
      (sign privateKey
            (sha256.(hash)
               (sha256.(hash)
                  (generateSigningSerializationBCH
                     (signingSerializationArguments
                        operationData sha256 [sighash]))))
       ++ [sighash]).
Proof.
  intros Hunknown Halgorithm Htype. unfold compilerOperationHelperComputeSignatureBCH.
  by rewrite Hunknown, Halgorithm, Htype.
Qed.


(** C3, as amended.  The result is a fatal error exactly when the
    identifier is malformed, and never a recoverable error or a skip.  A
    fourth segment gives the error naming the unknown component; a missing
    algorithm segment gives the invalid-identifier error, whose form names
    the operation name the caller passes ([signature] or
    [schnorr_signature]); an unrecognized algorithm gives the
    unknown-algorithm error.  In each of these cases the result is the
    same for every serialization function, operation data, private key,
    hash and signing function: none of them is used. *)
Theorem computeSignature_malformed
    (identifier : string) (operationData : CompilerOperationDataCommon)
    (operationName : string) (privateKey : Uint8Array) (sha256 : Sha256)
    (sign : Uint8Array → Uint8Array → Uint8Array) :
  let result :=
    compilerOperationHelperComputeSignatureBCH
      Flag generateSigningSerializationBCH
      identifier operationData operationName privateKey sha256 sign in
  (fatalError result ↔ malformedSignatureIdentifier identifier) ∧
  ¬ recoverableError result ∧ result ≠ Skip ∧
  (∀ unknown,
     segments identifier !! 3%nat = Some unknown →
     result = Error (unknownComponentError identifier unknown) false) ∧
  (segments identifier !! 3%nat = None →
   segments identifier !! 2%nat = None →
   result
   = Error ("Invalid signature identifier. Signatures must be of the form: "
            +:+ quoted ("[variable_id]." +:+ operationName
                        +:+ ".[signing_serialization_type]")
            +:+ ".") false) ∧
  (∀ algorithm,
     segments identifier !! 3%nat = None →
     segments identifier !! 2%nat = Some algorithm →
     algorithm ∉ recognizedAlgorithms →
     result
     = Error ("Unknown signing serialization algorithm, "
              +:+ quoted algorithm +:+ ".") false) ∧
  (malformedSignatureIdentifier identifier →
   ∀ generate' operationData' privateKey' sha256' sign',
     compilerOperationHelperComputeSignatureBCH
       Flag generate' identifier operationData' operationName privateKey'
       sha256' sign'
     = result).
Proof.
  intros result. subst result.
  unfold fatalError, recoverableError, malformedSignatureIdentifier.
  destruct (segments identifier !! 3%nat) as [unknown|] eqn:Hunknown.
  { rewrite (computeSignature_unknown _ unknown) by done.
    repeat split; try done; eauto.
    - intros [message Hmessage]. done.
    - intros unknown' [= <-]. done.
    - intros _ generate' operationData' privateKey' sha256' sign'.
      unfold compilerOperationHelperComputeSignatureBCH.
      by rewrite Hunknown. }
  destruct (segments identifier !! 2%nat) as [algorithm|] eqn:Halgorithm.
  2:{ rewrite computeSignature_missing by done.
      repeat split; try done; eauto.
      - intros [message Hmessage]. done.
      - intros _ generate' operationData' privateKey' sha256' sign'.
        unfold compilerOperationHelperComputeSignatureBCH.
        by rewrite Hunknown, Halgorithm. }
  destruct (decide (algorithm ∈ recognizedAlgorithms)) as [Hin|Hnot].
  - destruct (getSigningSerializationType_recognized
                Flag algorithm EmptyString Hin) as [sighash Htype].
    change (EmptyString +:+ algorithm) with algorithm in Htype.
    rewrite (computeSignature_recognized _ algorithm sighash) by done.
    repeat split; try done.
    + intros [message Hmessage]. done.
    + intros [[? [=]]|[[=]|(algorithm' & [= <-] & Hnot)]]. done.
    + intros [message Hmessage]. done.
    + intros algorithm' _ [= <-] Hnot. done.
    + intros [[? [=]]|[[=]|(algorithm' & [= <-] & Hnot)]]. done.
  - rewrite (computeSignature_unrecognized _ algorithm) by done.
    repeat split; try done; eauto 6.
    + intros [message Hmessage]. done.
    + intros algorithm' _ [= <-] _. done.
    + intros _ generate' operationData' privateKey' sha256' sign'.
      unfold compilerOperationHelperComputeSignatureBCH.
      rewrite Hunknown, Halgorithm.
      pose proof (getSigningSerializationType_unrecognized
                    Flag algorithm EmptyString Hnot) as Hnone.
      change (EmptyString +:+ algorithm) with algorithm in Hnone.
      by rewrite Hnone.
Qed.

End Signatures.

(** C3, the counterexample.  For the Schnorr operation the identifier
    [alice.schnorr_signature] lacks its algorithm segment, and the error is
    not the message with [.signature.] in it: the form it prescribes names
    [schnorr_signature]. *)
Lemma computeSignature_schnorr_form :
  let result :=
    compilerOperationHelperComputeSignatureBCH
      Sample.Flag Sample.generateSigningSerializationBCH
      "alice.schnorr_signature" Sample.operationData "schnorr_signature"
      Sample.privateKey Sample.sha256
      Sample.secp256k1.(signMessageHashSchnorr) in
  segments "alice.schnorr_signature" !! 2%nat = None ∧
  result
  = Error ("Invalid signature identifier. Signatures must be of the form: "
           +:+ quoted "[variable_id].schnorr_signature.[signing_serialization_type]"
           +:+ ".") false ∧
  result
  ≠ Error ("Invalid signature identifier. Signatures must be of the form: "
           +:+ quoted "[variable_id].signature.[signing_serialization_type]"
           +:+ ".") false.
Proof.
  vm_compute. split; [reflexivity|]. split; [reflexivity|]. discriminate.
Qed.



(** ** Data signatures *)

Section DataSignatures.

Variable resolveScriptIdentifier :
  CompilationData → CompilationEnvironment → string → ScriptResolution.

(** C5.  For an identifier [variableId.operation.targetScriptId] whose
    target script exists and compiles, the bytecode is
    [sign(privateKey, sha256(compiledTargetBytecode))]: the compiled
    bytecode is hashed once and nothing is appended to the signature.  The
    operation segment and the signing function are arbitrary, which covers
    both [data_signature] and [schnorr_data_signature]. *)
Theorem computeDataSignature_success
    (data : CompilationData) (environment : CompilationEnvironment)
    (variableId operation scriptId operationName source : string)
    (bytecode privateKey : Uint8Array) (sha256 : Sha256)
    (sign : Uint8Array → Uint8Array → Uint8Array) :
  dotless variableId = true →
  dotless operation = true →
  dotless scriptId = true →
  environment.(env_scripts) !! scriptId = Some source →
  resolveScriptIdentifier data environment scriptId
  = ResolvedScript bytecode →
  compilerOperationHelperComputeDataSignatureBCH
    resolveScriptIdentifier data environment
    (variableId +:+ "." +:+ operation +:+ "." +:+ scriptId)
    operationName privateKey sha256 sign
  = Success (sign privateKey (sha256.(hash) bytecode)).
Proof.
  intros Hvariable Hoperation Hscript Hsource Hcompiled.
  unfold compilerOperationHelperComputeDataSignatureBCH.
  rewrite (segments_three _ _ _ Hvariable Hoperation Hscript). simpl.
  by rewrite Hsource, Hcompiled.
Qed.

(** C6.  For an identifier [variableId.operation.targetScriptId]: when the
    target script id is absent from [environment.scripts], or the
    resolution returns [false], the result is the fatal error about the
    unknown target script; when the script exists and its compilation
    fails, the result is the fatal error carrying the compilation message.
    Both hold for every private key, hash and signing function: nothing is
    signed. *)
Theorem computeDataSignature_unresolved
    (data : CompilationData) (environment : CompilationEnvironment)
    (variableId operation scriptId operationName : string) :
  dotless variableId = true →
  dotless operation = true →
  dotless scriptId = true →
  let identifier := variableId +:+ "." +:+ operation +:+ "." +:+ scriptId in
  (environment.(env_scripts) !! scriptId = None ∨
   resolveScriptIdentifier data environment scriptId = ResolutionFalse →
   ∀ privateKey sha256 sign,
     compilerOperationHelperComputeDataSignatureBCH
       resolveScriptIdentifier data environment identifier operationName
       privateKey sha256 sign
     = Error ("Data signature tried to sign an unknown target script, "
              +:+ quoted scriptId +:+ ".") false) ∧
  (∀ message,
     is_Some (environment.(env_scripts) !! scriptId) →
     resolveScriptIdentifier data environment scriptId
     = ResolutionError message →
     ∀ privateKey sha256 sign,
       compilerOperationHelperComputeDataSignatureBCH
         resolveScriptIdentifier data environment identifier operationName
         privateKey sha256 sign
       = Error message false).
Proof.
  intros Hvariable Hoperation Hscript identifier. subst identifier.
  unfold compilerOperationHelperComputeDataSignatureBCH.
  rewrite (segments_three _ _ _ Hvariable Hoperation Hscript). simpl.
  split.
  - intros [Habsent|Hfalse] privateKey sha256 sign.
    + by rewrite Habsent.
    + rewrite Hfalse. by destruct (env_scripts environment !! scriptId).
  - intros message [source Hsource] Hfailed privateKey sha256 sign.
    by rewrite Hsource, Hfailed.
Qed.

End DataSignatures.

Lemma computeDataSignature_success_witness :
  compilerOperationHelperComputeDataSignatureBCH
    Sample.resolveScriptIdentifier Sample.noData Sample.fullEnvironment
    ("bob" +:+ "." +:+ "data_signature" +:+ "." +:+ "lock")
    "data_signature" Sample.privateKey Sample.sha256
    Sample.secp256k1.(signMessageHashDER)
  = Success (Sample.secp256k1.(signMessageHashDER) Sample.privateKey
               (Sample.sha256.(hash) [x51])).
Proof.
  apply (computeDataSignature_success Sample.resolveScriptIdentifier
           Sample.noData Sample.fullEnvironment
           "bob" "data_signature" "lock" "data_signature" "OP_1");
    reflexivity.
Defined.

Lemma computeDataSignature_unresolved_witness :
  compilerOperationHelperComputeDataSignatureBCH
    Sample.resolveScriptIdentifier Sample.noData Sample.bareEnvironment
    ("bob" +:+ "." +:+ "data_signature" +:+ "." +:+ "missing_script")
    "data_signature" Sample.privateKey Sample.sha256
    Sample.secp256k1.(signMessageHashDER)
  = Error ("Data signature tried to sign an unknown target script, "
           +:+ quoted "missing_script" +:+ ".") false.
Proof.
  destruct (computeDataSignature_unresolved Sample.resolveScriptIdentifier
              Sample.noData Sample.bareEnvironment
              "bob" "data_signature" "missing_script" "data_signature"
              eq_refl eq_refl eq_refl) as [Habsent _].
  apply Habsent. left. reflexivity.
Defined.

(** ** Prerequisites *)

Lemma requires_provided
    canBeSkipped dataProperties environmentProperties operation
    identifier data environment :
  missingProperty dataProperties environmentProperties data environment
  = None →
  compilerOperationRequires canBeSkipped dataProperties environmentProperties
    operation identifier data environment
  = operation identifier data environment.
Proof. intros Hnone. unfold compilerOperationRequires. by rewrite Hnone. Qed.

Lemma requires_missing
    canBeSkipped dataProperties environmentProperties operation
    identifier data environment property :
  missingProperty dataProperties environmentProperties data environment
  = Some property →
  compilerOperationRequires canBeSkipped dataProperties environmentProperties
    operation identifier data environment
  = Some (if canBeSkipped then Skip
          else Error ("missing property: " +:+ property) false).
Proof. intros Hsome. unfold compilerOperationRequires. by rewrite Hsome. Qed.

(** A required operation that only fails fatally keeps doing so behind its
    prerequisites. *)
Lemma requires_fatal
    dataProperties environmentProperties operation identifier data
    environment :
  (∃ message, operation identifier data environment
              = Some (Error message false)) →
  ∃ message,
    compilerOperationRequires false dataProperties environmentProperties
      operation identifier data environment
    = Some (Error message false).
Proof.
  intros Hfatal. unfold compilerOperationRequires.
  destruct (missingProperty _ _ _ _); eauto.
Qed.

(** ** Chains *)

(** The first operation of a two-step chain decides when it succeeds or
    fails fatally. *)
Lemma attempt_first_success first final identifier data environment bytes :
  first identifier data environment = Some (Success bytes) →
  attemptCompilerOperations [first] final identifier data environment
  = Some (Success bytes).
Proof.
  intros Hfirst. unfold attemptCompilerOperations. simpl.
  by rewrite Hfirst.
Qed.

Lemma attempt_first_fatal first final identifier data environment message :
  first identifier data environment = Some (Error message false) →
  attemptCompilerOperations [first] final identifier data environment
  = Some (Error message false).
Proof.
  intros Hfirst. unfold attemptCompilerOperations. simpl.
  by rewrite Hfirst.
Qed.

(** After a skip or a recoverable error the final operation decides,
    unless it skips too. *)
Lemma attempt_first_skip first final identifier data environment result :
  first identifier data environment = Some Skip →
  final identifier data environment = Some result →
  result ≠ Skip →
  attemptCompilerOperations [first] final identifier data environment
  = Some result.
Proof.
  intros Hfirst Hfinal Hresult. unfold attemptCompilerOperations. simpl.
  rewrite Hfirst, Hfinal. by destruct result as [| |? []].
Qed.

Lemma attempt_first_recoverable
    first final identifier data environment message result :
  first identifier data environment = Some (Error message true) →
  final identifier data environment = Some result →
  result ≠ Skip →
  attemptCompilerOperations [first] final identifier data environment
  = Some result.
Proof.
  intros Hfirst Hfinal Hresult. unfold attemptCompilerOperations. simpl.
  rewrite Hfirst, Hfinal. by destruct result as [| |? []].
Qed.

Lemma attempt_both_skip first final identifier data environment :
  first identifier data environment = Some Skip →
  final identifier data environment = Some Skip →
  attemptCompilerOperations [first] final identifier data environment
  = Some (Error "no operation produced a result" false).
Proof.
  intros Hfirst Hfinal. unfold attemptCompilerOperations. simpl.
  by rewrite Hfirst, Hfinal.
Qed.

(** ** The full signing serialization *)

Lemma getSigningSerializationType_Some_prefix Flag component prefix bytes :
  getSigningSerializationType Flag component prefix = Some bytes →
  ∃ algorithm,
    algorithm ∈ recognizedAlgorithms ∧ component = prefix +:+ algorithm.
Proof.
  unfold getSigningSerializationType, recognizedAlgorithms.
  repeat match goal with
         | |- context [String.eqb component (prefix +:+ ?algorithm)] =>
             destruct (String.eqb_spec component (prefix +:+ algorithm))
               as [->|_];
             [intros _; exists algorithm; split; [|reflexivity];
              rewrite !elem_of_cons; tauto|]
         end.
  discriminate.
Qed.

Section FullSerialization.

Variable Flag : SigningSerializationFlag.
Variable generateSigningSerializationBCH :
  SigningSerializationArguments → Uint8Array.


End FullSerialization.

(** ** The corresponding output *)

(** C9, as amended.  With operation data present and no corresponding
    output, the [corresponding_output] operation succeeds with the empty
    byte sequence in every environment, and the [corresponding_output_hash]
    operation does so when the environment provides [sha256], which it
    requires; without [sha256] it fails fatally.  When the corresponding
    output is present, the hash operation returns its double hash. *)
Theorem correspondingOutput_absent
    (identifier : string) (data : CompilationData)
    (environment : CompilationEnvironment)
    (operationData : CompilerOperationDataCommon) :
  data.(data_operationData) = Some operationData →
  (operationData.(correspondingOutput) = None →
   compilerOperationSigningSerializationCorrespondingOutput
     identifier data environment
   = Some (Success []) ∧
   (is_Some environment.(env_sha256) →
    compilerOperationSigningSerializationCorrespondingOutputHash
      identifier data environment
    = Some (Success [])) ∧
   (environment.(env_sha256) = None →
    fatalError' (compilerOperationSigningSerializationCorrespondingOutputHash
                   identifier data environment))) ∧
  (∀ output sha256,
     operationData.(correspondingOutput) = Some output →
     environment.(env_sha256) = Some sha256 →
     compilerOperationSigningSerializationCorrespondingOutputHash
       identifier data environment
     = Some (Success (sha256.(hash) (sha256.(hash) output)))).
Proof.
  intros Hdata.
  unfold compilerOperationSigningSerializationCorrespondingOutput,
    compilerOperationSigningSerializationCorrespondingOutputHash.
  split; [intros Habsent; split; [|split]|].
  - rewrite requires_provided.
    + rewrite Hdata. simpl. by rewrite Habsent.
    + unfold missingProperty. simpl. by rewrite Hdata.
  - intros [sha256 Hsha256]. rewrite requires_provided.
    + rewrite Hdata. simpl. by rewrite Habsent.
    + unfold missingProperty. simpl. by rewrite Hdata, Hsha256.
  - intros Hsha256. unfold fatalError'.
    erewrite requires_missing; [eauto|].
    unfold missingProperty. simpl. by rewrite Hdata, Hsha256.
  - intros output sha256 Hpresent Hsha256. rewrite requires_provided.
    + rewrite Hdata. simpl. rewrite Hpresent, Hsha256. done.
    + unfold missingProperty. simpl. by rewrite Hdata, Hsha256.
Qed.

Lemma correspondingOutput_absent_witness :
  compilerOperationSigningSerializationCorrespondingOutput
    "signing_serialization.corresponding_output"
    Sample.operationOnlyData Sample.fullEnvironment
  = Some (Success []) ∧
  compilerOperationSigningSerializationCorrespondingOutputHash
    "signing_serialization.corresponding_output_hash"
    Sample.operationOnlyData Sample.fullEnvironment
  = Some (Success []).
Proof.
  split.
  - destruct (correspondingOutput_absent
                "signing_serialization.corresponding_output"
                Sample.operationOnlyData Sample.fullEnvironment
                Sample.operationData eq_refl) as [Habsent _].
    exact (proj1 (Habsent eq_refl)).
  - destruct (correspondingOutput_absent
                "signing_serialization.corresponding_output_hash"
                Sample.operationOnlyData Sample.fullEnvironment
                Sample.operationData eq_refl) as [Habsent _].
    apply (proj1 (proj2 (Habsent eq_refl))). simpl. eauto.
Defined.

(** C9, the counterexample.  In an environment without [sha256] the hash
    operation returns a fatal error although the operation data is present
    and has no corresponding output. *)
Lemma correspondingOutputHash_requires_sha256 :
  let result :=
    compilerOperationSigningSerializationCorrespondingOutputHash
      "signing_serialization.corresponding_output_hash"
      Sample.operationOnlyData Sample.bareEnvironment in
  (Sample.operationOnlyData.(data_operationData)
     ≫= correspondingOutput) = None ∧
  is_Some Sample.operationOnlyData.(data_operationData) ∧
  result = Some (Error "missing property: sha256" false) ∧
  result ≠ Some (Success []).
Proof.
  vm_compute. repeat split; [eauto | discriminate].
Qed.

(** ** Public keys *)

(** C4, as amended.  For the identifier [variableId.public_key]: a
    provided public key is returned as it is, whatever else is present;
    otherwise a provided private key is turned into its compressed public
    key when the environment provides [secp256k1]; when neither key is
    provided the result is a recoverable error if the data has [keys] and
    the environment has [secp256k1], and the fatal error of the missing
    prerequisite if one of the two is absent. *)
Theorem keyPublicKey_spec
    (variableId : string) (data : CompilationData)
    (environment : CompilationEnvironment) :
  dotless variableId = true →
  let result :=
    compilerOperationKeyPublicKeyCommon
      (variableId +:+ ".public_key") data environment in
  (∀ publicKey,
     providedPublicKey data variableId = Some publicKey →
     result = Some (Success publicKey)) ∧
  (∀ privateKey secp256k1,
     providedPublicKey data variableId = None →
     providedPrivateKey data variableId = Some privateKey →
     environment.(env_secp256k1) = Some secp256k1 →
     result
     = Some (Success (secp256k1.(derivePublicKeyCompressed) privateKey))) ∧
  (providedPublicKey data variableId = None →
   providedPrivateKey data variableId = None →
   is_Some data.(data_keys) → is_Some environment.(env_secp256k1) →
   recoverableError' result) ∧
  (providedPublicKey data variableId = None →
   providedPrivateKey data variableId = None →
   data.(data_keys) = None ∨ environment.(env_secp256k1) = None →
   fatalError' result).
Proof.
  intros Hvariable result. subst result.
  unfold compilerOperationKeyPublicKeyCommon, attemptCompilerOperations,
    recoverableError', fatalError', compilerOperationRequires,
    missingProperty, providedPublicKey, providedPrivateKey.
  change (variableId +:+ ".public_key")
    with (variableId +:+ "." +:+ "public_key").
  simpl. rewrite (variableIdOf_prefix _ _ Hvariable).
  destruct (data_keys data) as [keys|]; simpl;
    [destruct (publicKeys keys) as [publicKeys|]; simpl;
     [destruct (publicKeys !! variableId) as [publicKey|]; simpl|];
     (destruct (privateKeys keys) as [privateKeys|]; simpl;
      [destruct (privateKeys !! variableId) as [privateKey|]; simpl|])|];
    destruct (env_secp256k1 environment) as [secp256k1|]; simpl.
  all: repeat split; intros; simplify_eq/=; eauto.
  all: repeat match goal with
              | H : is_Some None |- _ => destruct H as [? [=]]
              | H : _ ∨ _ |- _ => destruct H as [[=]|[=]]
              end.
Qed.

Lemma keyPublicKey_spec_witness :
  compilerOperationKeyPublicKeyCommon
    ("alice" +:+ ".public_key") Sample.publicKeyData Sample.bareEnvironment
  = Some (Success Sample.publicKey).
Proof.
  destruct (keyPublicKey_spec "alice" Sample.publicKeyData
              Sample.bareEnvironment eq_refl) as [Hprovided _].
  apply Hprovided. reflexivity.
Defined.

(** C4, the counterexample.  With [keys] empty and no [secp256k1] in the
    environment, neither key is provided and the error is the fatal one of
    the missing prerequisite, not a recoverable one. *)
Lemma keyPublicKey_requires_secp256k1 :
  let result :=
    compilerOperationKeyPublicKeyCommon
      "alice.public_key" Sample.emptyKeysData Sample.bareEnvironment in
  providedPublicKey Sample.emptyKeysData "alice" = None ∧
  providedPrivateKey Sample.emptyKeysData "alice" = None ∧
  result = Some (Error "missing property: secp256k1" false) ∧
  ¬ recoverableError' result.
Proof.
  vm_compute. repeat split. intros [message [=]].
Qed.

(** ** HD public keys *)

Section HdPublicPath.

Variable Defaults : CompilerDefaults.
Variable HdPublicNode : Type.
Variable publicKey : HdPublicNode → Uint8Array.
Variable decodeHdPublicKey :
  CompilationEnvironment → string → string + HdPublicNode.
Variable deriveHdPath :
  CompilationEnvironment → HdPublicNode → string → string + HdPublicNode.
Variable compilerOperationHelperUnknownEntity :
  string → string → CompilerOperationResult.
Variable compilerOperationHelperAddressIndex :
  string → CompilerOperationResult.
Variable compilerOperationHelperDeriveHdPrivateNode :
  Z → string → string → CompilationEnvironment → option HdKey → string →
  option CompilerOperationResult.

(** C8.  On the public path (the entity's HD private key absent, its HD
    public key present and decoded), the derivation is asked for the
    instance path: the public derivation path, which defaults to the
    private derivation path with the first [m] replaced by [M], with the
    first [i] replaced by the decimal rendering of
    [addressIndex + addressOffset]; the result of the operation is what
    [deriveHdPath] answers for that path.  With the private derivation path
    [m/0/i], address index 3 and address offset 2 that path is [M/0/5]. *)
Theorem hdKeyPublicKey_instancePath
    (identifier : string) (data : CompilationData)
    (environment : CompilationEnvironment) (hdKeys : CompilationDataHdKeys)
    (entityOwnership : gmap string string)
    (variables : gmap string AuthenticationTemplateVariable)
    (entityId entityHdPublicKey : string) (index : Z) (hdKey : HdKey)
    (masterNode : HdPublicNode) :
  data.(data_hdKeys) = Some hdKeys →
  environment.(env_entityOwnership) = Some entityOwnership →
  entityOwnership !! variableIdOf identifier = Some entityId →
  hdKeys.(addressIndex) = Some index →
  hdKeys.(hdPrivateKeys) ≫= (.!! entityId) = None →
  hdKeys.(hdPublicKeys) ≫= (.!! entityId) = Some entityHdPublicKey →
  environment.(env_variables) = Some variables →
  variables !! variableIdOf identifier = Some (VariableHdKey hdKey) →
  decodeHdPublicKey environment entityHdPublicKey = inr masterNode →
  let publicPath :=
    default
      (replace "m" "M"
         (default Defaults.(hdKeyPrivateDerivationPath)
                  hdKey.(privateDerivationPath)))
      hdKey.(publicDerivationPath) in
  let instancePath :=
    replace "i"
      (Number_toString
         (index + default Defaults.(hdKeyAddressOffset)
                          hdKey.(addressOffset)))
      publicPath in
  compilerOperationHdKeyPublicKeyDerive
    Defaults HdPublicNode publicKey decodeHdPublicKey deriveHdPath
    compilerOperationHelperUnknownEntity compilerOperationHelperAddressIndex
    compilerOperationHelperDeriveHdPrivateNode identifier data environment
  = Some
      match deriveHdPath environment masterNode instancePath with
      | inl message =>
          Error ("Could not generate " +:+ quoted identifier
                 +:+ " " +:+ endash +:+ " the path "
                 +:+ quoted instancePath
                 +:+ " could not be derived for entity "
                 +:+ quoted entityId +:+ ": " +:+ message)
                false
      | inr instanceNode => Success (publicKey instanceNode)
      end ∧
  (hdKey.(privateDerivationPath) = Some "m/0/i" →
   hdKey.(publicDerivationPath) = None →
   hdKey.(addressOffset) = Some 2%Z →
   index = 3%Z →
   instancePath = "M/0/5").
Proof.
  intros Hdata Hownership Hentity Hindex Hprivate Hpublic Hvariables Hkey
    Hdecoded publicPath instancePath.
  split.
  - unfold compilerOperationHdKeyPublicKeyDerive.
    rewrite Hdata, Hownership. simpl.
    rewrite Hentity, Hindex, Hprivate, Hvariables. simpl.
    rewrite Hpublic, Hkey. simpl. rewrite Hdecoded.
    fold publicPath. unfold instancePathOf. fold publicPath.
    fold instancePath. by destruct (deriveHdPath _ _ _).
  - subst instancePath publicPath.
    intros -> -> -> ->. reflexivity.
Qed.

(** Behind its prerequisites, and without a derived public key in the
    data, the whole operation is its final operation. *)
Lemma hdKeyPublicKeyCommon_derives
    (identifier : string) (data : CompilationData)
    (environment : CompilationEnvironment) (hdKeys : CompilationDataHdKeys)
    (result : CompilerOperationResult) :
  data.(data_hdKeys) = Some hdKeys →
  hdKeys.(derivedPublicKeys) ≫= (.!! variableIdOf identifier) = None →
  is_Some environment.(env_entityOwnership) →
  is_Some environment.(env_ripemd160) →
  is_Some environment.(env_secp256k1) →
  is_Some environment.(env_sha256) →
  is_Some environment.(env_sha512) →
  is_Some environment.(env_variables) →
  compilerOperationHdKeyPublicKeyDerive
    Defaults HdPublicNode publicKey decodeHdPublicKey deriveHdPath
    compilerOperationHelperUnknownEntity compilerOperationHelperAddressIndex
    compilerOperationHelperDeriveHdPrivateNode identifier data environment
  = Some result →
  result ≠ Skip →
  compilerOperationHdKeyPublicKeyCommon
    Defaults HdPublicNode publicKey decodeHdPublicKey deriveHdPath
    compilerOperationHelperUnknownEntity compilerOperationHelperAddressIndex
    compilerOperationHelperDeriveHdPrivateNode identifier data environment
  = Some result.
Proof.
  intros Hdata Hderived [? Hownership] [? Hripemd160] [? Hsecp256k1]
    [? Hsha256] [? Hsha512] [? Hvariables] Hfinal Hresult.
  unfold compilerOperationHdKeyPublicKeyCommon.
  apply attempt_first_skip; [| |done].
  - rewrite requires_provided.
    + rewrite Hdata. simpl. by rewrite Hderived.
    + unfold missingProperty. simpl. by rewrite Hdata.
  - rewrite requires_provided; [done|].
    unfold missingProperty. simpl.
    by rewrite Hdata, Hownership, Hripemd160, Hsecp256k1, Hsha256,
      Hsha512, Hvariables.
Qed.

End HdPublicPath.

Lemma hdKeyPublicKey_instancePath_witness :
  compilerOperationHdKeyPublicKeyDerive
    Sample.Defaults string Sample.nodePublicKey Sample.decodeHdPublicKey
    Sample.deriveHdPath Sample.unknownEntity Sample.missingAddressIndex
    Sample.derivePrivateNode "alice.public_key" Sample.hdKeysData
    Sample.fullEnvironment
  = Some (Success (list_byte_of_string "M/0/5")).
Proof.
  destruct (hdKeyPublicKey_instancePath
              Sample.Defaults string Sample.nodePublicKey
              Sample.decodeHdPublicKey Sample.deriveHdPath
              Sample.unknownEntity Sample.missingAddressIndex
              Sample.derivePrivateNode "alice.public_key" Sample.hdKeysData
              Sample.fullEnvironment _ _ _ "owner" "xpub" 3%Z _ "M"
              eq_refl eq_refl eq_refl eq_refl eq_refl eq_refl eq_refl
              eq_refl eq_refl) as [Hresult Hpath].
  exact Hresult.
Defined.

(** ** The template adapter *)

Section TemplateAdapter.

Lemma foldl_insert_owner
    (keys : list string) (entityId : string) (start : gmap string string)
    (variableId : string) :
  foldl (λ entityVariables key, <[key := entityId]> entityVariables)
        start keys !! variableId
  = if decide (variableId ∈ keys) then Some entityId
    else start !! variableId.
Proof.
  revert start. induction keys as [|key keys IH]; intros start; [done|].
  cbn [foldl]. rewrite IH. repeat case_decide; try done.
  - exfalso. rewrite elem_of_cons in *. tauto.
  - destruct (decide (variableId = key)) as [->|Hne].
    + apply lookup_insert_eq.
    + exfalso. rewrite elem_of_cons in *. tauto.
  - apply lookup_insert_ne. rewrite elem_of_cons in *.
    intros ->. tauto.
Qed.

Lemma Object_keys_spec {V} (object : gmap string V) (key : string) :
  key ∈ Object_keys object ↔ is_Some (object !! key).
Proof.
  unfold Object_keys. rewrite list_elem_of_fmap. split.
  - intros ([key' value] & -> & Hin). apply elem_of_map_to_list in Hin.
    simpl. eauto.
  - intros [value Hvalue]. exists (key, value). split; [done|].
    by apply elem_of_map_to_list.
Qed.

Lemma entityVariables_lookup
    (entityId : string) (entity : AuthenticationTemplateEntity)
    (variableId : string) :
  foldl (λ (entityVariables : gmap string string) key,
           <[key := entityId]> entityVariables)
        ∅ (Object_keys (declared entity)) !! variableId
  = (λ _, entityId) <$> declared entity !! variableId.
Proof.
  rewrite foldl_insert_owner.
  destruct (decide (variableId ∈ Object_keys (declared entity)))
    as [Hin|Hnot].
  - apply Object_keys_spec in Hin as [variable ->]. done.
  - rewrite Object_keys_spec, <-eq_None_not_Some in Hnot.
    by rewrite Hnot, lookup_empty.
Qed.

Lemma ownershipStep_lookup all entityId entity variableId :
  ownershipStep all (entityId, entity) !! variableId
  = match declared entity !! variableId with
    | Some _ => Some entityId
    | None => all !! variableId
    end.
Proof.
  unfold ownershipStep, spread. fold (declared entity).
  rewrite lookup_union, entityVariables_lookup.
  destruct (declared entity !! variableId); simpl;
    by destruct (all !! variableId).
Qed.

Lemma variablesStep_lookup all entity variableId :
  variablesStep all entity !! variableId
  = match declared entity !! variableId with
    | Some variable => Some variable
    | None => all !! variableId
    end.
Proof.
  unfold variablesStep, spread. fold (declared entity).
  rewrite lookup_union.
  destruct (declared entity !! variableId); simpl;
    by destruct (all !! variableId).
Qed.

(** Entities that do not declare a variable leave its entry alone. *)
Lemma ownership_undeclared entities all variableId :
  (∀ later, later ∈ entities → declared later.2 !! variableId = None) →
  foldl ownershipStep all entities !! variableId = all !! variableId.
Proof.
  revert all. induction entities as [|[entityId entity] entities IH];
    intros all Hnone; [done|].
  cbn [foldl]. rewrite IH.
  - rewrite ownershipStep_lookup.
    pose proof (Hnone (entityId, entity) (list_elem_of_here _ _)) as Hhere.
    simpl in Hhere. by rewrite Hhere.
  - intros later Hlater. apply Hnone. by apply list_elem_of_further.
Qed.

Lemma variables_undeclared
    (entities : list (string * AuthenticationTemplateEntity))
    all variableId :
  (∀ later, later ∈ entities → declared later.2 !! variableId = None) →
  foldl variablesStep all entities.*2 !! variableId = all !! variableId.
Proof.
  revert all. induction entities as [|[entityId entity] entities IH];
    intros all Hnone; [done|].
  rewrite fmap_cons. cbn [foldl snd]. rewrite IH.
  - rewrite variablesStep_lookup.
    pose proof (Hnone (entityId, entity) (list_elem_of_here _ _)) as Hhere.
    simpl in Hhere. by rewrite Hhere.
  - intros later Hlater. apply Hnone. by apply list_elem_of_further.
Qed.

(** Both folds add the same keys. *)
Lemma adapter_same_keys
    (entities : list (string * AuthenticationTemplateEntity))
    allVariables allOwnership :
  dom allVariables = dom allOwnership →
  dom (foldl variablesStep allVariables entities.*2)
  = dom (foldl ownershipStep allOwnership entities).
Proof.
  revert allVariables allOwnership.
  induction entities as [|[entityId entity] entities IH];
    intros allVariables allOwnership Hdom; [done|].
  rewrite fmap_cons. cbn [foldl snd]. apply IH. apply set_eq.
  intros variableId.
  rewrite !elem_of_dom, variablesStep_lookup, ownershipStep_lookup.
  destruct (declared entity !! variableId); [by split; eauto|].
  by rewrite <-!elem_of_dom, Hdom.
Qed.

(** An owner is either inherited or an entity that declares the
    variable. *)
Lemma ownership_declares entities all variableId entityId :
  foldl ownershipStep all entities !! variableId = Some entityId →
  all !! variableId = Some entityId ∨
  ∃ entity, (entityId, entity) ∈ entities ∧
            is_Some (declared entity !! variableId).
Proof.
  revert all. induction entities as [|[entityId' entity] entities IH];
    intros all Howner; [by left|].
  cbn [foldl] in Howner.
  apply IH in Howner as [Hstep|(owner & Hin & Hdeclared)].
  - rewrite ownershipStep_lookup in Hstep.
    destruct (declared entity !! variableId) as [variable|] eqn:Hdeclared;
      [|by left].
    injection Hstep as ->. right. exists entity.
    split; [apply list_elem_of_here | by rewrite Hdeclared].
  - right. exists owner. split; [by apply list_elem_of_further | done].
Qed.

(** A declared variable has an owner. *)
Lemma ownership_covers entities all variableId entityId entity :
  (entityId, entity) ∈ entities →
  is_Some (declared entity !! variableId) →
  is_Some (foldl ownershipStep all entities !! variableId).
Proof.
  intros Hin Hdeclared.
  assert (∀ rest start,
            is_Some (start !! variableId) →
            is_Some (foldl ownershipStep start rest !! variableId))
    as Hkept.
  { induction rest as [|[entityId' entity'] rest IH]; intros start Hstart;
      [done|].
    cbn [foldl]. apply IH. rewrite ownershipStep_lookup.
    by destruct (declared entity' !! variableId). }
  revert all. induction entities as [|entry entities IH]; intros all.
  - by apply elem_of_nil in Hin.
  - apply elem_of_cons in Hin as [<-|Hin]; cbn [foldl].
    + apply Hkept. rewrite ownershipStep_lookup.
      by destruct Hdeclared as [variable ->].
    + by apply IH.
Qed.

(** C10.  The variables map and the entity-ownership map of the adapter
    have the same key set, whether or not an entity declares variables;
    the keys are exactly the variable ids that occur in some entity; the
    owner recorded for a variable id is an entity that declares it; and
    when several entities declare a variable id, the last-enumerated one
    wins in both maps. *)
Theorem templateEnvironment_ownership (template : AuthenticationTemplate) :
  let environment :=
    authenticationTemplateToCompilationEnvironment template in
  dom environment.(variables) = dom environment.(entityOwnership) ∧
  (∀ variableId,
     is_Some (environment.(entityOwnership) !! variableId) ↔
     ∃ entityId entity,
       (entityId, entity) ∈ template.(template_entities) ∧
       is_Some (declared entity !! variableId)) ∧
  (∀ variableId entityId,
     environment.(entityOwnership) !! variableId = Some entityId →
     ∃ entity,
       (entityId, entity) ∈ template.(template_entities) ∧
       is_Some (declared entity !! variableId)) ∧
  (∀ before entityId entity after variableId variable,
     template.(template_entities) = before ++ (entityId, entity) :: after →
     declared entity !! variableId = Some variable →
     (∀ later, later ∈ after → declared later.2 !! variableId = None) →
     environment.(entityOwnership) !! variableId = Some entityId ∧
     environment.(variables) !! variableId = Some variable).
Proof.
  intros environment. subst environment.
  unfold authenticationTemplateToCompilationEnvironment. simpl.
  fold variablesStep.
  change (foldl _ ∅ (template_entities template))
    with (foldl ownershipStep ∅ (template_entities template)).
  assert (∀ variableId entityId,
            foldl ownershipStep ∅ (template_entities template) !! variableId
            = Some entityId →
            ∃ entity,
              (entityId, entity) ∈ template_entities template ∧
              is_Some (declared entity !! variableId)) as Hdeclares.
  { intros variableId entityId Howner.
    apply ownership_declares in Howner as [Hempty|Hentity]; [|done].
    by rewrite lookup_empty in Hempty. }
  split; [by apply adapter_same_keys|]. split; [|split; [done|]].
  - intros variableId. split.
    + intros [entityId Howner]. exists entityId. by apply Hdeclares.
    + intros (entityId & entity & Hin & Hdeclared).
      by apply (ownership_covers _ _ _ entityId entity).
  - intros before entityId entity after variableId variable -> Hdeclared
      Hlast.
    rewrite fmap_app, fmap_cons, !foldl_app. cbn [foldl snd].
    rewrite ownership_undeclared, variables_undeclared by done.
    rewrite ownershipStep_lookup, variablesStep_lookup.
    by rewrite Hdeclared.
Qed.

End TemplateAdapter.

(** The adapter on a template whose entities [first] and [second] both
    declare [shared]: the later entity owns it and supplies its
    definition. *)
Example templateEnvironment_shared :
  let environment :=
    authenticationTemplateToCompilationEnvironment Sample.template in
  environment.(entityOwnership) !! "shared" = Some "second" ∧
  environment.(variables) !! "shared" = Some VariableAddressData ∧
  environment.(entityOwnership) !! "own" = Some "first" ∧
  environment.(scripts) !! "lock" = Some "OP_1".
Proof. vm_compute. done. Qed.

(** ** Scenarios of the specification, evaluated *)

Example split_examples :
  split dot "alice.signature.all_outputs"
  = ["alice"; "signature"; "all_outputs"] ∧
  split dot "alice.signature" = ["alice"; "signature"] ∧
  split dot "a.b..c" = ["a"; "b"; EmptyString; "c"] ∧
  split dot "a." = ["a"; EmptyString] ∧
  split dot EmptyString = [EmptyString].
Proof. vm_compute. done. Qed.

Example replace_examples :
  replace "m" "M" "m/0/i" = "M/0/i" ∧
  replace "i" (Number_toString 5) "M/0/i" = "M/0/5" ∧
  replace "i" (Number_toString 12) "M/i/i" = "M/12/i" ∧
  replace "i" (Number_toString 0) "M/7" = "M/7" ∧
  Number_toString (-3) = "-3".
Proof. vm_compute. done. Qed.

(** S1: no [secp256k1], only the public key of [alice]. *)
Example scenario_S1 :
  compilerOperationKeyPublicKeyCommon
    "alice.public_key" Sample.publicKeyData Sample.bareEnvironment
  = Some (Success Sample.publicKey).
Proof. vm_compute. done. Qed.

(** S3: the signature ends with [0x41]. *)
Example scenario_S3 :
  compilerOperationHelperComputeSignatureBCH
    Sample.Flag Sample.generateSigningSerializationBCH
    "alice.signature.all_outputs" Sample.operationData "signature"
    Sample.privateKey Sample.sha256 Sample.secp256k1.(signMessageHashDER)
  = Success ([x30; x01; x01; x00; x00; x51; x41] ++ [x41]).
Proof. vm_compute. done. Qed.

(** S5: the target script is unknown. *)
Example scenario_S5 :
  compilerOperationHelperComputeDataSignatureBCH
    Sample.resolveScriptIdentifier Sample.emptyKeysData
    Sample.fullEnvironment "bob.data_signature.missing_script"
    "data_signature" Sample.privateKey Sample.sha256
    Sample.secp256k1.(signMessageHashDER)
  = Error ("Data signature tried to sign an unknown target script, "
           +:+ quoted "missing_script" +:+ ".") false.
Proof. vm_compute. done. Qed.

(** S6: the algorithm is unknown. *)
Example scenario_S6 :
  compilerOperationHelperComputeSignatureBCH
    Sample.Flag Sample.generateSigningSerializationBCH
    "alice.signature.unknown_algo" Sample.operationData "signature"
    Sample.privateKey Sample.sha256 Sample.secp256k1.(signMessageHashDER)
  = Error ("Unknown signing serialization algorithm, "
           +:+ quoted "unknown_algo" +:+ ".") false.
Proof. vm_compute. done. Qed.

(** The full serialization of [all_outputs] is the generated preimage. *)
Example scenario_full_all_outputs :
  compilerOperationSigningSerializationFullBCH
    Sample.Flag Sample.generateSigningSerializationBCH
    "signing_serialization.full_all_outputs" Sample.operationOnlyData
    Sample.fullEnvironment
  = Some (Success [x51; x41]).
Proof. vm_compute. done. Qed.

(** ** The operations of keys *)

(** The outcome of the signature helper is decided by the identifier
    alone. *)
Lemma computeSignature_cases
    Flag generate identifier operationData operationName privateKey sha256
    sign :
  let result :=
    compilerOperationHelperComputeSignatureBCH
      Flag generate identifier operationData operationName privateKey sha256
      sign in
  (malformedSignatureIdentifier identifier ∧ fatalError result) ∨
  (¬ malformedSignatureIdentifier identifier ∧
   ∃ bytecode, result = Success bytecode).
Proof.
  intros result. subst result.
  unfold malformedSignatureIdentifier, fatalError.
  destruct (segments identifier !! 3%nat) as [unknown|] eqn:Hunknown.
  { left. rewrite (computeSignature_unknown _ _ _ unknown) by done.
    split; eauto. }
  destruct (segments identifier !! 2%nat) as [algorithm|] eqn:Halgorithm.
  2:{ left. rewrite computeSignature_missing by done. split; eauto. }
  destruct (decide (algorithm ∈ recognizedAlgorithms)) as [Hin|Hnot].
  - right.
    destruct (getSigningSerializationType_recognized
                Flag algorithm EmptyString Hin) as [sighash Htype].
    change (EmptyString +:+ algorithm) with algorithm in Htype.
    rewrite (computeSignature_recognized _ _ _ algorithm sighash) by done.
    split; [|eauto].
    intros [[? [=]]|[[=]|(algorithm' & [= <-] & Hnot)]]. done.
  - left. rewrite (computeSignature_unrecognized _ _ _ algorithm) by done.
    split; eauto 6.
Qed.

Section KeyOperationProperties.

Variable Flag : SigningSerializationFlag.
Variable generateSigningSerializationBCH :
  SigningSerializationArguments → Uint8Array.
Variable resolveScriptIdentifier :
  CompilationData → CompilationEnvironment → string → ScriptResolution.
Variable compilerOperationHelperDeriveHdKeyPrivate :
  CompilationEnvironment → CompilationDataHdKeys → string →
  CompilerOperationResult.

(** X1.  When the data has [keys] but no private key for the variable, the
    operations of the Key signatures and of the Key data signatures both
    return the recoverable error about the missing private key, for every
    identifier: the key is looked up before the identifier is validated and
    before the target script is resolved. *)
Theorem keyOperations_missing_private_key
    (operationName : string) (secp256k1Method : Secp256k1Method.t)
    (identifier : string) (data : CompilationData)
    (environment : CompilationEnvironment) :
  is_Some data.(data_keys) →
  providedPrivateKey data (variableIdOf identifier) = None →
  keySignatureOperationBCH
    Flag generateSigningSerializationBCH operationName secp256k1Method
    identifier data environment
  = Some (Error (missingPrivateKeyError
                   identifier (variableIdOf identifier)) true) ∧
  keyDataSignatureOperationBCH
    resolveScriptIdentifier operationName secp256k1Method
    identifier data environment
  = Some (Error (missingPrivateKeyError
                   identifier (variableIdOf identifier)) true).
Proof.
  intros [keys Hkeys] Hprivate.
  unfold keySignatureOperationBCH, keyDataSignatureOperationBCH.
  unfold providedPrivateKey in Hprivate. rewrite Hkeys in *. simpl.
  destruct (privateKeys keys) as [privateKeys|]; simpl; [|done].
  by rewrite Hprivate.
Qed.

(** X2.  With the private key of the variable, the operation data,
    [sha256] and [secp256k1] provided, the Key signature operation on
    [variableId.operation.algorithm] with a recognized algorithm signs the
    double hash of the signing serialization with that private key and the
    configured [secp256k1] method, and appends the SIGHASH byte. *)
Theorem keySignature_signs
    (operationName : string) (secp256k1Method : Secp256k1Method.t)
    (variableId operation algorithm : string) (data : CompilationData)
    (environment : CompilationEnvironment) (privateKey : Uint8Array)
    (operationData : CompilerOperationDataCommon) (secp256k1 : Secp256k1)
    (sha256 : Sha256) :
  dotless variableId = true →
  dotless operation = true →
  algorithm ∈ recognizedAlgorithms →
  providedPrivateKey data variableId = Some privateKey →
  data.(data_operationData) = Some operationData →
  environment.(env_secp256k1) = Some secp256k1 →
  environment.(env_sha256) = Some sha256 →
  ∃ sighash,
    getSigningSerializationType Flag algorithm EmptyString
    = Some [sighash] ∧
    keySignatureOperationBCH
      Flag generateSigningSerializationBCH operationName secp256k1Method
      (variableId +:+ "." +:+ operation +:+ "." +:+ algorithm)
      data environment
    = Some (Success
              (secp256k1Member secp256k1 secp256k1Method privateKey
                 (sha256.(hash)
                    (sha256.(hash)
                       (generateSigningSerializationBCH
                          (signingSerializationArguments
                             operationData sha256 [sighash]))))
               ++ [sighash])).
Proof.
  intros Hvariable Hoperation Halgorithm Hprivate Hdata Hsecp256k1 Hsha256.
  destruct (getSigningSerializationType_recognized
              Flag algorithm EmptyString Halgorithm) as [sighash Htype].
  change (EmptyString +:+ algorithm) with algorithm in Htype.
  exists sighash. split; [done|].
  pose proof (segments_three variableId operation algorithm
                Hvariable Hoperation
                (recognized_dotless algorithm Halgorithm)) as Hsegments.
  unfold keySignatureOperationBCH.
  rewrite (variableIdOf_prefix _ _ Hvariable).
  unfold providedPrivateKey in Hprivate.
  destruct (data_keys data) as [keys|]; [|done]. simpl.
  destruct (privateKeys keys) as [privateKeys|]; [|done]. simpl.
  rewrite Hprivate, Hsecp256k1, Hdata, Hsha256. simpl. f_equal.
  apply (computeSignature_recognized _ _ _ algorithm sighash);
    [by rewrite Hsegments | by rewrite Hsegments | done].
Qed.

(** X3.  With the private key and the prerequisites provided, the Key
    signature operation returns a fatal error exactly when the identifier
    is malformed, and a success otherwise; it never returns a recoverable
    error.  Only the missing key is recoverable. *)
Theorem keySignature_fatal_iff_malformed
    (operationName : string) (secp256k1Method : Secp256k1Method.t)
    (identifier : string) (data : CompilationData)
    (environment : CompilationEnvironment) (privateKey : Uint8Array) :
  providedPrivateKey data (variableIdOf identifier) = Some privateKey →
  is_Some data.(data_operationData) →
  is_Some environment.(env_secp256k1) →
  is_Some environment.(env_sha256) →
  let result :=
    keySignatureOperationBCH
      Flag generateSigningSerializationBCH operationName secp256k1Method
      identifier data environment in
  (fatalError' result ↔ malformedSignatureIdentifier identifier) ∧
  ((∃ bytecode, result = Some (Success bytecode)) ↔
   ¬ malformedSignatureIdentifier identifier) ∧
  ¬ recoverableError' result.
Proof.
  intros Hprivate [operationData Hdata] [secp256k1 Hsecp256k1]
    [sha256 Hsha256] result. subst result.
  unfold keySignatureOperationBCH.
  unfold providedPrivateKey in Hprivate.
  destruct (data_keys data) as [keys|]; [|done]. simpl.
  destruct (privateKeys keys) as [privateKeys|]; [|done]. simpl.
  rewrite Hprivate, Hsecp256k1, Hdata, Hsha256. simpl.
  unfold fatalError', recoverableError'.
  destruct (computeSignature_cases
              Flag generateSigningSerializationBCH identifier operationData
              operationName privateKey sha256
              (secp256k1Member secp256k1 secp256k1Method))
    as [[Hmalformed [message ->]]|[Hfine [bytecode ->]]].
  - repeat split; try done; eauto.
    + intros [? [=]].
    + intros [? [=]].
  - repeat split; try done; eauto.
    + intros [? [=]].
    + intros [? [=]].
Qed.

(** X4.  With the private key, [sha256] and [secp256k1] provided, the Key
    data-signature operation on [variableId.operation.targetScriptId],
    whose target script exists and compiles, signs the single hash of the
    compiled bytecode with that private key and the configured method. *)
Theorem keyDataSignature_signs
    (operationName : string) (secp256k1Method : Secp256k1Method.t)
    (variableId operation scriptId source : string)
    (data : CompilationData) (environment : CompilationEnvironment)
    (privateKey bytecode : Uint8Array) (secp256k1 : Secp256k1)
    (sha256 : Sha256) :
  dotless variableId = true →
  dotless operation = true →
  dotless scriptId = true →
  providedPrivateKey data variableId = Some privateKey →
  environment.(env_secp256k1) = Some secp256k1 →
  environment.(env_sha256) = Some sha256 →
  environment.(env_scripts) !! scriptId = Some source →
  resolveScriptIdentifier data environment scriptId
  = ResolvedScript bytecode →
  keyDataSignatureOperationBCH
    resolveScriptIdentifier operationName secp256k1Method
    (variableId +:+ "." +:+ operation +:+ "." +:+ scriptId)
    data environment
  = Some (Success
            (secp256k1Member secp256k1 secp256k1Method privateKey
               (sha256.(hash) bytecode))).
Proof.
  intros Hvariable Hoperation Hscript Hprivate Hsecp256k1 Hsha256 Hsource
    Hcompiled.
  unfold keyDataSignatureOperationBCH.
  rewrite (variableIdOf_prefix _ _ Hvariable).
  unfold providedPrivateKey in Hprivate.
  destruct (data_keys data) as [keys|] eqn:Hkeys; [|done]. simpl.
  destruct (privateKeys keys) as [privateKeys|]; [|done]. simpl.
  rewrite Hprivate, Hsecp256k1, Hsha256. simpl. f_equal.
  unfold compilerOperationHelperComputeDataSignatureBCH.
  rewrite (segments_three _ _ _ Hvariable Hoperation Hscript). simpl.
  by rewrite Hsource, Hcompiled.
Qed.

(** X5.  An error of the private HD derivation is returned as it is,
    message and recoverability, by the HD signature operation and by the HD
    data-signature operation, for every identifier: nothing is validated,
    resolved or signed after it. *)
Theorem hdKeyOperations_derivation_error
    (operationName : string) (secp256k1Method : Secp256k1Method.t)
    (identifier : string) (data : CompilationData)
    (environment : CompilationEnvironment) (hdKeys : CompilationDataHdKeys)
    (error : string) (recoverable : bool) :
  data.(data_hdKeys) = Some hdKeys →
  compilerOperationHelperDeriveHdKeyPrivate environment hdKeys identifier
  = Error error recoverable →
  hdKeySignatureOperationBCH
    Flag generateSigningSerializationBCH
    compilerOperationHelperDeriveHdKeyPrivate operationName secp256k1Method
    identifier data environment
  = Some (Error error recoverable) ∧
  hdKeyDataSignatureOperationBCH
    resolveScriptIdentifier compilerOperationHelperDeriveHdKeyPrivate
    operationName secp256k1Method identifier data environment
  = Some (Error error recoverable).
Proof.
  intros Hdata Hderivation.
  unfold hdKeySignatureOperationBCH, hdKeyDataSignatureOperationBCH.
  rewrite Hdata. simpl. by rewrite Hderivation.
Qed.

(** X6.  When the private HD derivation succeeds, the HD signature
    operation on [variableId.operation.algorithm] with a recognized
    algorithm signs the double hash of the signing serialization with the
    derived key and appends the SIGHASH byte. *)
Theorem hdKeySignature_signs
    (operationName : string) (secp256k1Method : Secp256k1Method.t)
    (variableId operation algorithm : string) (data : CompilationData)
    (environment : CompilationEnvironment) (hdKeys : CompilationDataHdKeys)
    (derivedKey : Uint8Array)
    (operationData : CompilerOperationDataCommon) (secp256k1 : Secp256k1)
    (sha256 : Sha256) :
  dotless variableId = true →
  dotless operation = true →
  algorithm ∈ recognizedAlgorithms →
  data.(data_hdKeys) = Some hdKeys →
  compilerOperationHelperDeriveHdKeyPrivate
    environment hdKeys
    (variableId +:+ "." +:+ operation +:+ "." +:+ algorithm)
  = Success derivedKey →
  data.(data_operationData) = Some operationData →
  environment.(env_secp256k1) = Some secp256k1 →
  environment.(env_sha256) = Some sha256 →
  ∃ sighash,
    getSigningSerializationType Flag algorithm EmptyString
    = Some [sighash] ∧
    hdKeySignatureOperationBCH
      Flag generateSigningSerializationBCH
      compilerOperationHelperDeriveHdKeyPrivate operationName
      secp256k1Method
      (variableId +:+ "." +:+ operation +:+ "." +:+ algorithm)
      data environment
    = Some (Success
              (secp256k1Member secp256k1 secp256k1Method derivedKey
                 (sha256.(hash)
                    (sha256.(hash)
                       (generateSigningSerializationBCH
                          (signingSerializationArguments
                             operationData sha256 [sighash]))))
               ++ [sighash])).
Proof.
  intros Hvariable Hoperation Halgorithm Hkeys Hderived Hdata Hsecp256k1
    Hsha256.
  destruct (getSigningSerializationType_recognized
              Flag algorithm EmptyString Halgorithm) as [sighash Htype].
  change (EmptyString +:+ algorithm) with algorithm in Htype.
  exists sighash. split; [done|].
  pose proof (segments_three variableId operation algorithm
                Hvariable Hoperation
                (recognized_dotless algorithm Halgorithm)) as Hsegments.
  unfold hdKeySignatureOperationBCH. rewrite Hkeys. simpl.
  rewrite Hderived, Hsecp256k1, Hdata, Hsha256. simpl. f_equal.
  apply (computeSignature_recognized _ _ _ algorithm sighash);
    [by rewrite Hsegments | by rewrite Hsegments | done].
Qed.

(** X7.  When the private HD derivation succeeds, the HD data-signature
    operation on [variableId.operation.targetScriptId], whose target script
    exists and compiles, signs the single hash of the compiled bytecode
    with the derived key. *)
Theorem hdKeyDataSignature_signs
    (operationName : string) (secp256k1Method : Secp256k1Method.t)
    (variableId operation scriptId source : string)
    (data : CompilationData) (environment : CompilationEnvironment)
    (hdKeys : CompilationDataHdKeys) (derivedKey bytecode : Uint8Array)
    (secp256k1 : Secp256k1) (sha256 : Sha256) :
  dotless variableId = true →
  dotless operation = true →
  dotless scriptId = true →
  data.(data_hdKeys) = Some hdKeys →
  compilerOperationHelperDeriveHdKeyPrivate
    environment hdKeys
    (variableId +:+ "." +:+ operation +:+ "." +:+ scriptId)
  = Success derivedKey →
  environment.(env_secp256k1) = Some secp256k1 →
  environment.(env_sha256) = Some sha256 →
  environment.(env_scripts) !! scriptId = Some source →
  resolveScriptIdentifier data environment scriptId
  = ResolvedScript bytecode →
  hdKeyDataSignatureOperationBCH
    resolveScriptIdentifier compilerOperationHelperDeriveHdKeyPrivate
    operationName secp256k1Method
    (variableId +:+ "." +:+ operation +:+ "." +:+ scriptId)
    data environment
  = Some (Success
            (secp256k1Member secp256k1 secp256k1Method derivedKey
               (sha256.(hash) bytecode))).
Proof.
  intros Hvariable Hoperation Hscript Hkeys Hderived Hsecp256k1 Hsha256
    Hsource Hcompiled.
  unfold hdKeyDataSignatureOperationBCH. rewrite Hkeys. simpl.
  rewrite Hderived, Hsecp256k1, Hsha256. simpl. f_equal.
  unfold compilerOperationHelperComputeDataSignatureBCH.
  rewrite (segments_three _ _ _ Hvariable Hoperation Hscript). simpl.
  by rewrite Hsource, Hcompiled.
Qed.

End KeyOperationProperties.

Lemma keyOperations_missing_private_key_witness :
  keySignatureOperationBCH
    Sample.Flag Sample.generateSigningSerializationBCH "signature"
    Secp256k1Method.signMessageHashDER "alice.signature.unknown_algo"
    Sample.emptyKeysData Sample.fullEnvironment
  = Some (Error (missingPrivateKeyError
                   "alice.signature.unknown_algo"
                   (variableIdOf "alice.signature.unknown_algo")) true) ∧
  keyDataSignatureOperationBCH
    Sample.resolveScriptIdentifier "signature"
    Secp256k1Method.signMessageHashDER "alice.signature.unknown_algo"
    Sample.emptyKeysData Sample.fullEnvironment
  = Some (Error (missingPrivateKeyError
                   "alice.signature.unknown_algo"
                   (variableIdOf "alice.signature.unknown_algo")) true).
Proof.
  apply (keyOperations_missing_private_key
           Sample.Flag Sample.generateSigningSerializationBCH
           Sample.resolveScriptIdentifier "signature"
           Secp256k1Method.signMessageHashDER "alice.signature.unknown_algo"
           Sample.emptyKeysData Sample.fullEnvironment).
  - simpl. eauto.
  - reflexivity.
Defined.

Lemma keySignature_signs_witness :
  ∃ sighash,
    getSigningSerializationType Sample.Flag "all_outputs" EmptyString
    = Some [sighash] ∧
    keySignatureOperationBCH
      Sample.Flag Sample.generateSigningSerializationBCH
      "schnorr_signature" Secp256k1Method.signMessageHashSchnorr
      ("alice" +:+ "." +:+ "schnorr_signature" +:+ "." +:+ "all_outputs")
      Sample.signingData Sample.fullEnvironment
    = Some (Success
              (secp256k1Member Sample.secp256k1
                 Secp256k1Method.signMessageHashSchnorr Sample.privateKey
                 (Sample.sha256.(hash)
                    (Sample.sha256.(hash)
                       (Sample.generateSigningSerializationBCH
                          (signingSerializationArguments
                             Sample.operationData Sample.sha256
                             [sighash]))))
               ++ [sighash])).
Proof.
  apply (keySignature_signs
           Sample.Flag Sample.generateSigningSerializationBCH
           "schnorr_signature" Secp256k1Method.signMessageHashSchnorr
           "alice" "schnorr_signature" "all_outputs"
           Sample.signingData Sample.fullEnvironment);
    try reflexivity.
  unfold recognizedAlgorithms. apply list_elem_of_here.
Defined.

Lemma keySignature_fatal_iff_malformed_witness :
  fatalError' (keySignatureOperationBCH
                 Sample.Flag Sample.generateSigningSerializationBCH
                 "signature" Secp256k1Method.signMessageHashDER
                 "alice.signature" Sample.signingData
                 Sample.fullEnvironment)
  ↔ malformedSignatureIdentifier "alice.signature".
Proof.
  apply (keySignature_fatal_iff_malformed
           Sample.Flag Sample.generateSigningSerializationBCH
           "signature" Secp256k1Method.signMessageHashDER
           "alice.signature" Sample.signingData Sample.fullEnvironment
           Sample.privateKey);
    [reflexivity | simpl; eauto | simpl; eauto | simpl; eauto].
Defined.

Lemma keyDataSignature_signs_witness :
  keyDataSignatureOperationBCH
    Sample.resolveScriptIdentifier "data_signature"
    Secp256k1Method.signMessageHashDER
    ("alice" +:+ "." +:+ "data_signature" +:+ "." +:+ "lock")
    Sample.signingData Sample.fullEnvironment
  = Some (Success
            (secp256k1Member Sample.secp256k1
               Secp256k1Method.signMessageHashDER Sample.privateKey
               (Sample.sha256.(hash) [x51]))).
Proof.
  apply (keyDataSignature_signs
           Sample.resolveScriptIdentifier "data_signature"
           Secp256k1Method.signMessageHashDER
           "alice" "data_signature" "lock" "OP_1"
           Sample.signingData Sample.fullEnvironment);
    reflexivity.
Defined.

Lemma hdKeyOperations_derivation_error_witness :
  hdKeySignatureOperationBCH
    Sample.Flag Sample.generateSigningSerializationBCH
    Sample.failingDeriveHdKeyPrivate "signature"
    Secp256k1Method.signMessageHashDER "alice.signature.all_outputs"
    Sample.hdSigningData Sample.fullEnvironment
  = Some (Error "no HD private key" true) ∧
  hdKeyDataSignatureOperationBCH
    Sample.resolveScriptIdentifier Sample.failingDeriveHdKeyPrivate
    "signature" Secp256k1Method.signMessageHashDER
    "alice.signature.all_outputs" Sample.hdSigningData
    Sample.fullEnvironment
  = Some (Error "no HD private key" true).
Proof.
  eapply (hdKeyOperations_derivation_error
            Sample.Flag Sample.generateSigningSerializationBCH
            Sample.resolveScriptIdentifier Sample.failingDeriveHdKeyPrivate
            "signature" Secp256k1Method.signMessageHashDER
            "alice.signature.all_outputs" Sample.hdSigningData
            Sample.fullEnvironment);
    reflexivity.
Defined.

Lemma hdKeySignature_signs_witness :
  ∃ sighash,
    getSigningSerializationType Sample.Flag "no_outputs" EmptyString
    = Some [sighash] ∧
    hdKeySignatureOperationBCH
      Sample.Flag Sample.generateSigningSerializationBCH
      Sample.deriveHdKeyPrivate "signature"
      Secp256k1Method.signMessageHashDER
      ("alice" +:+ "." +:+ "signature" +:+ "." +:+ "no_outputs")
      Sample.hdSigningData Sample.fullEnvironment
    = Some (Success
              (secp256k1Member Sample.secp256k1
                 Secp256k1Method.signMessageHashDER Sample.privateKey
                 (Sample.sha256.(hash)
                    (Sample.sha256.(hash)
                       (Sample.generateSigningSerializationBCH
                          (signingSerializationArguments
                             Sample.operationData Sample.sha256
                             [sighash]))))
               ++ [sighash])).
Proof.
  eapply (hdKeySignature_signs
            Sample.Flag Sample.generateSigningSerializationBCH
            Sample.deriveHdKeyPrivate "signature"
            Secp256k1Method.signMessageHashDER
            "alice" "signature" "no_outputs"
            Sample.hdSigningData Sample.fullEnvironment);
    try reflexivity.
  unfold recognizedAlgorithms. rewrite !elem_of_cons. tauto.
Defined.

Lemma hdKeyDataSignature_signs_witness :
  hdKeyDataSignatureOperationBCH
    Sample.resolveScriptIdentifier Sample.deriveHdKeyPrivate
    "schnorr_data_signature" Secp256k1Method.signMessageHashSchnorr
    ("alice" +:+ "." +:+ "schnorr_data_signature" +:+ "." +:+ "lock")
    Sample.hdSigningData Sample.fullEnvironment
  = Some (Success
            (secp256k1Member Sample.secp256k1
               Secp256k1Method.signMessageHashSchnorr Sample.privateKey
               (Sample.sha256.(hash) [x51]))).
Proof.
  eapply (hdKeyDataSignature_signs
            Sample.resolveScriptIdentifier Sample.deriveHdKeyPrivate
            "schnorr_data_signature" Secp256k1Method.signMessageHashSchnorr
            "alice" "schnorr_data_signature" "lock" "OP_1"
            Sample.hdSigningData Sample.fullEnvironment);
    reflexivity.
Defined.

(** ** Algorithm names, preimages and data signatures *)

Lemma full_dotless algorithm :
  algorithm ∈ recognizedAlgorithms → dotless ("full_" +:+ algorithm) = true.
Proof.
  unfold recognizedAlgorithms. rewrite !elem_of_cons, elem_of_nil.
  intros [->|[->|[->|[->|[->|[->|[]]]]]]]; reflexivity.
Qed.

Lemma full_unrecognized algorithm :
  algorithm ∈ recognizedAlgorithms →
  "full_" +:+ algorithm ∉ recognizedAlgorithms.
Proof.
  unfold recognizedAlgorithms. rewrite !elem_of_cons, elem_of_nil.
  intros [->|[->|[->|[->|[->|[->|[]]]]]]] Hfull;
    repeat (destruct Hfull as [Hfull|Hfull];
            [vm_compute in Hfull; discriminate|]);
    by apply elem_of_nil in Hfull.
Qed.

Lemma signingSerializationFull_success
    Flag generate algorithm sighash data environment operationData sha256 :
  algorithm ∈ recognizedAlgorithms →
  getSigningSerializationType Flag algorithm EmptyString = Some [sighash] →
  data.(data_operationData) = Some operationData →
  environment.(env_sha256) = Some sha256 →
  compilerOperationSigningSerializationFullBCH
    Flag generate ("signing_serialization.full_" +:+ algorithm)
    data environment
  = Some (Success
            (generate
               (signingSerializationArguments
                  operationData sha256 [sighash]))).
Proof.
  intros Halgorithm Htype Hdata Hsha256.
  assert (getSigningSerializationType Flag ("full_" +:+ algorithm) "full_"
          = Some [sighash]) as Hfull.
  { revert Htype. unfold getSigningSerializationType.
    rewrite !append_eqb_prefix. by change (EmptyString +:+ ?a) with a. }
  unfold compilerOperationSigningSerializationFullBCH.
  rewrite requires_provided.
  2:{ unfold missingProperty. simpl. by rewrite Hdata, Hsha256. }
  pose proof (segments_two "signing_serialization"
                ("full_" +:+ algorithm) eq_refl
                (full_dotless _ Halgorithm)) as Hsegments.
  change ("signing_serialization" +:+ "." +:+ "full_" +:+ algorithm)
    with ("signing_serialization.full_" +:+ algorithm) in Hsegments.
  rewrite Hsegments. simpl. by rewrite Hfull, Hdata, Hsha256.
Qed.

Section AlgorithmNames.

Variable Flag : SigningSerializationFlag.
Variable generateSigningSerializationBCH :
  SigningSerializationArguments → Uint8Array.

(** X8.  The names of the signature algorithms and of the full
    serializations do not overlap: a recognized algorithm with the [full_]
    prefix is no signature algorithm, so a signature identifier ending in
    it fails with the unknown-algorithm error, and a bare algorithm is no
    full serialization, so [signing_serialization.<algorithm>] fails
    fatally in the full-serialization operation. *)
Theorem algorithm_namespaces_disjoint
    (variableId operation algorithm operationName : string)
    (operationData : CompilerOperationDataCommon)
    (privateKey : Uint8Array) (sha256 : Sha256)
    (sign : Uint8Array → Uint8Array → Uint8Array)
    (data : CompilationData) (environment : CompilationEnvironment) :
  dotless variableId = true →
  dotless operation = true →
  algorithm ∈ recognizedAlgorithms →
  getSigningSerializationType Flag ("full_" +:+ algorithm) EmptyString
  = None ∧
  getSigningSerializationType Flag algorithm "full_" = None ∧
  compilerOperationHelperComputeSignatureBCH
    Flag generateSigningSerializationBCH
    (variableId +:+ "." +:+ operation +:+ "." +:+ "full_" +:+ algorithm)
    operationData operationName privateKey sha256 sign
  = Error ("Unknown signing serialization algorithm, "
           +:+ quoted ("full_" +:+ algorithm) +:+ ".") false ∧
  fatalError' (compilerOperationSigningSerializationFullBCH
                 Flag generateSigningSerializationBCH
                 ("signing_serialization" +:+ "." +:+ algorithm)
                 data environment).
Proof.
  intros Hvariable Hoperation Halgorithm.
  pose proof (getSigningSerializationType_unrecognized
                Flag _ EmptyString (full_unrecognized _ Halgorithm))
    as Hsignature.
  change (EmptyString +:+ ?a) with a in Hsignature.
  assert (getSigningSerializationType Flag algorithm "full_" = None)
    as Hfull.
  { destruct (getSigningSerializationType Flag algorithm "full_")
      as [bytes|] eqn:Htype; [|done].
    apply getSigningSerializationType_Some_prefix in Htype
      as (algorithm' & Hin & ->).
    by destruct (full_unrecognized _ Hin). }
  split; [done|]. split; [done|]. split.
  - apply (computeSignature_unrecognized _ _ _ ("full_" +:+ algorithm));
      [| |by apply full_unrecognized];
      by rewrite (segments_three _ _ _ Hvariable Hoperation
                    (full_dotless _ Halgorithm)).
  - unfold fatalError', compilerOperationSigningSerializationFullBCH.
    apply requires_fatal.
    rewrite (segments_two "signing_serialization" algorithm eq_refl
               (recognized_dotless _ Halgorithm)).
    simpl. rewrite Hfull. eauto.
Qed.

(** X9.  The signature commits to the full serialization: with operation
    data and [sha256] provided, what a signature for [algorithm] signs is
    the double hash of exactly the bytecode that
    [signing_serialization.full_<algorithm>] returns, and the byte appended
    to the signature is the one both were generated with. *)
Theorem signature_signs_full_preimage
    (variableId operation algorithm operationName : string)
    (data : CompilationData) (environment : CompilationEnvironment)
    (operationData : CompilerOperationDataCommon) (sha256 : Sha256)
    (privateKey : Uint8Array)
    (sign : Uint8Array → Uint8Array → Uint8Array) :
  dotless variableId = true →
  dotless operation = true →
  algorithm ∈ recognizedAlgorithms →
  data.(data_operationData) = Some operationData →
  environment.(env_sha256) = Some sha256 →
  ∃ preimage sighash,
    compilerOperationSigningSerializationFullBCH
      Flag generateSigningSerializationBCH
      ("signing_serialization.full_" +:+ algorithm) data environment
    = Some (Success preimage) ∧
    getSigningSerializationType Flag algorithm EmptyString
    = Some [sighash] ∧
    compilerOperationHelperComputeSignatureBCH
      Flag generateSigningSerializationBCH
      (variableId +:+ "." +:+ operation +:+ "." +:+ algorithm)
      operationData operationName privateKey sha256 sign
    = Success (sign privateKey (sha256.(hash) (sha256.(hash) preimage))
               ++ [sighash]).
Proof.
  intros Hvariable Hoperation Halgorithm Hdata Hsha256.
  destruct (getSigningSerializationType_recognized
              Flag algorithm EmptyString Halgorithm) as [sighash Htype].
  change (EmptyString +:+ algorithm) with algorithm in Htype.
  eexists _, sighash. split; [|split; [done|]].
  - by apply (signingSerializationFull_success _ _ _ sighash).
  - pose proof (segments_three variableId operation algorithm
                  Hvariable Hoperation
                  (recognized_dotless algorithm Halgorithm)) as Hsegments.
    apply (computeSignature_recognized _ _ _ algorithm sighash);
      [by rewrite Hsegments | by rewrite Hsegments | done].
Qed.

End AlgorithmNames.

Lemma algorithm_namespaces_disjoint_witness :
  getSigningSerializationType Sample.Flag ("full_" +:+ "all_outputs")
    EmptyString = None ∧
  getSigningSerializationType Sample.Flag "all_outputs" "full_" = None ∧
  compilerOperationHelperComputeSignatureBCH
    Sample.Flag Sample.generateSigningSerializationBCH
    ("alice" +:+ "." +:+ "signature" +:+ "." +:+ "full_" +:+ "all_outputs")
    Sample.operationData "signature" Sample.privateKey Sample.sha256
    Sample.secp256k1.(signMessageHashDER)
  = Error ("Unknown signing serialization algorithm, "
           +:+ quoted ("full_" +:+ "all_outputs") +:+ ".") false ∧
  fatalError' (compilerOperationSigningSerializationFullBCH
                 Sample.Flag Sample.generateSigningSerializationBCH
                 ("signing_serialization" +:+ "." +:+ "all_outputs")
                 Sample.operationOnlyData Sample.fullEnvironment).
Proof.
  apply (algorithm_namespaces_disjoint
           Sample.Flag Sample.generateSigningSerializationBCH
           "alice" "signature" "all_outputs" "signature");
    [reflexivity | reflexivity |].
  unfold recognizedAlgorithms. apply list_elem_of_here.
Defined.

Lemma signature_signs_full_preimage_witness :
  ∃ preimage sighash,
    compilerOperationSigningSerializationFullBCH
      Sample.Flag Sample.generateSigningSerializationBCH
      ("signing_serialization.full_" +:+ "all_outputs")
      Sample.operationOnlyData Sample.fullEnvironment
    = Some (Success preimage) ∧
    getSigningSerializationType Sample.Flag "all_outputs" EmptyString
    = Some [sighash] ∧
    compilerOperationHelperComputeSignatureBCH
      Sample.Flag Sample.generateSigningSerializationBCH
      ("alice" +:+ "." +:+ "signature" +:+ "." +:+ "all_outputs")
      Sample.operationData "signature" Sample.privateKey Sample.sha256
      Sample.secp256k1.(signMessageHashDER)
    = Success (Sample.secp256k1.(signMessageHashDER) Sample.privateKey
                 (Sample.sha256.(hash) (Sample.sha256.(hash) preimage))
               ++ [sighash]).
Proof.
  apply (signature_signs_full_preimage
           Sample.Flag Sample.generateSigningSerializationBCH
           "alice" "signature" "all_outputs" "signature"
           Sample.operationOnlyData Sample.fullEnvironment);
    try reflexivity.
  unfold recognizedAlgorithms. apply list_elem_of_here.
Defined.

Section DataSignatureOutcome.

Variable resolveScriptIdentifier :
  CompilationData → CompilationEnvironment → string → ScriptResolution.

(** X10.  The data-signature helper succeeds exactly when the identifier
    has a third segment and no fourth, that segment is a script of the
    environment, and the script resolves to bytecode; the success is then
    the signature of the single hash of that bytecode.  Every other outcome
    is a fatal error, never a recoverable one nor a skip: a fourth segment
    gives the unknown-component error whatever the script is, and a missing
    third segment the invalid-identifier error with the operation name. *)
Theorem computeDataSignature_outcome
    (data : CompilationData) (environment : CompilationEnvironment)
    (identifier operationName : string) (privateKey : Uint8Array)
    (sha256 : Sha256) (sign : Uint8Array → Uint8Array → Uint8Array) :
  let result :=
    compilerOperationHelperComputeDataSignatureBCH
      resolveScriptIdentifier data environment identifier operationName
      privateKey sha256 sign in
  (∀ bytes,
     result = Success bytes ↔
     ∃ scriptId bytecode,
       segments identifier !! 3%nat = None ∧
       segments identifier !! 2%nat = Some scriptId ∧
       is_Some (environment.(env_scripts) !! scriptId) ∧
       resolveScriptIdentifier data environment scriptId
       = ResolvedScript bytecode ∧
       bytes = sign privateKey (sha256.(hash) bytecode)) ∧
  ((∃ bytes, result = Success bytes) ∨ fatalError result) ∧
  (∀ unknown,
     segments identifier !! 3%nat = Some unknown →
     result = Error (unknownComponentError identifier unknown) false) ∧
  (segments identifier !! 3%nat = None →
   segments identifier !! 2%nat = None →
   result
   = Error ("Invalid data signature identifier. Data signatures must be of the form: "
            +:+ quoted ("[variable_id]." +:+ operationName
                        +:+ ".[target_script_id]")
            +:+ ".") false).
Proof.
  intros result. subst result.
  unfold compilerOperationHelperComputeDataSignatureBCH, fatalError.
  cbv zeta.
  destruct (segments identifier !! 3%nat) as [unknown|] eqn:Hunknown.
  { repeat split; try done; eauto.
    - intros (? & ? & [=] & _).
    - by intros ? [= <-]. }
  destruct (segments identifier !! 2%nat) as [scriptId|] eqn:Hscript.
  2:{ repeat split; try done; eauto.
      intros (? & ? & _ & [=] & _). }
  destruct (env_scripts environment !! scriptId) as [source|] eqn:Hsource.
  2:{ repeat split; try done; eauto.
      intros (? & ? & _ & [= <-] & Hsome & _).
      rewrite Hsource in Hsome. by destruct Hsome. }
  destruct (resolveScriptIdentifier data environment scriptId)
    as [bytecode|message|] eqn:Hresolved.
  - repeat split; try done; eauto.
    + intros [= <-]. exists scriptId, bytecode.
      rewrite Hsource. eauto 10.
    + intros (? & ? & _ & [= <-] & _ & Hsame & ->).
      rewrite Hresolved in Hsame. by injection Hsame as <-.
  - repeat split; try done; eauto.
    intros (? & ? & _ & [= <-] & _ & Hsame & _).
    by rewrite Hresolved in Hsame.
  - repeat split; try done; eauto.
    intros (? & ? & _ & [= <-] & _ & Hsame & _).
    by rewrite Hresolved in Hsame.
Qed.

End DataSignatureOutcome.

(** ** The first occurrence of a character *)

Lemma replace_lacks c replacement s :
  lacks c s = true → replace c replacement s = s.
Proof.
  induction s as [|c' s IH]; [done|]. simpl.
  intros [Hc Hs]%andb_true_iff. apply negb_true_iff in Hc as ->.
  by rewrite (IH Hs).
Qed.

Lemma replace_first c replacement prefix suffix :
  lacks c prefix = true →
  replace c replacement (prefix +:+ String c suffix)
  = prefix +:+ replacement +:+ suffix.
Proof.
  induction prefix as [|c' prefix IH].
  - intros _. change (EmptyString +:+ String c suffix) with (String c suffix).
    cbn [replace]. by rewrite Ascii.eqb_refl.
  - intros [Hc Hprefix]%andb_true_iff. apply negb_true_iff in Hc.
    change (String c' prefix +:+ String c suffix)
      with (String c' (prefix +:+ String c suffix)).
    cbn [replace]. rewrite Hc, (IH Hprefix). done.
Qed.

(** ** The derivation of HD public keys *)

Section HdPublicKeyProperties.

Variable Defaults : CompilerDefaults.
Variable HdPublicNode : Type.
Variable publicKey : HdPublicNode → Uint8Array.
Variable decodeHdPublicKey :
  CompilationEnvironment → string → string + HdPublicNode.
Variable deriveHdPath :
  CompilationEnvironment → HdPublicNode → string → string + HdPublicNode.
Variable compilerOperationHelperUnknownEntity :
  string → string → CompilerOperationResult.
Variable compilerOperationHelperAddressIndex :
  string → CompilerOperationResult.
Variable compilerOperationHelperDeriveHdPrivateNode :
  Z → string → string → CompilationEnvironment → option HdKey → string →
  option CompilerOperationResult.

(** X11.  The final operation of the HD public key first looks up the
    owner of the variable: when the entity ownership has no entry for it,
    the result is that of the unknown-entity helper, whether or not an
    address index is given; when the owner is known and the data has no
    address index, the result is that of the address-index helper. *)
Theorem hdKeyPublicKey_entity_then_index
    (identifier : string) (data : CompilationData)
    (environment : CompilationEnvironment) (hdKeys : CompilationDataHdKeys)
    (entityOwnership : gmap string string) :
  data.(data_hdKeys) = Some hdKeys →
  environment.(env_entityOwnership) = Some entityOwnership →
  let result :=
    compilerOperationHdKeyPublicKeyDerive
      Defaults HdPublicNode publicKey decodeHdPublicKey deriveHdPath
      compilerOperationHelperUnknownEntity
      compilerOperationHelperAddressIndex
      compilerOperationHelperDeriveHdPrivateNode identifier data
      environment in
  (entityOwnership !! variableIdOf identifier = None →
   result
   = Some (compilerOperationHelperUnknownEntity
             identifier (variableIdOf identifier))) ∧
  (is_Some (entityOwnership !! variableIdOf identifier) →
   hdKeys.(addressIndex) = None →
   result = Some (compilerOperationHelperAddressIndex identifier)).
Proof.
  intros Hdata Hownership result. subst result.
  unfold compilerOperationHdKeyPublicKeyDerive.
  rewrite Hdata, Hownership. simpl. split.
  - by intros ->.
  - intros [entityId ->] Hindex. by rewrite Hindex.
Qed.

(** X12.  When the owner and the address index are known but the data has
    neither an HD private key nor an HD public key for the owning entity,
    the result is a recoverable error that names the identifier and the
    entity; this does not need the variable to be declared. *)
Theorem hdKeyPublicKey_missing_keys
    (identifier : string) (data : CompilationData)
    (environment : CompilationEnvironment) (hdKeys : CompilationDataHdKeys)
    (entityOwnership : gmap string string) (entityId : string) (index : Z) :
  data.(data_hdKeys) = Some hdKeys →
  environment.(env_entityOwnership) = Some entityOwnership →
  entityOwnership !! variableIdOf identifier = Some entityId →
  hdKeys.(addressIndex) = Some index →
  is_Some environment.(env_variables) →
  hdKeys.(hdPrivateKeys) ≫= (.!! entityId) = None →
  hdKeys.(hdPublicKeys) ≫= (.!! entityId) = None →
  compilerOperationHdKeyPublicKeyDerive
    Defaults HdPublicNode publicKey decodeHdPublicKey deriveHdPath
    compilerOperationHelperUnknownEntity compilerOperationHelperAddressIndex
    compilerOperationHelperDeriveHdPrivateNode identifier data environment
  = Some (Error
            ("Identifier " +:+ quoted identifier
             +:+ " refers to an HdKey owned by " +:+ quoted entityId
             +:+ ", but an HD private key or HD public key for this entity was not provided in the compilation data.")
            true).
Proof.
  intros Hdata Hownership Hentity Hindex [variables Hvariables] Hprivate
    Hpublic.
  unfold compilerOperationHdKeyPublicKeyDerive.
  rewrite Hdata, Hownership. simpl.
  rewrite Hentity, Hindex, Hprivate, Hvariables. simpl.
  by rewrite Hpublic.
Qed.

(** X13.  When the data has an HD private key for the owning entity, the
    public key comes from the private derivation alone: an error of the
    derivation is returned as it is, and a derived private key is turned
    into its compressed public key.  The HD public keys of the data, the
    decoding and the public derivation play no part. *)
Theorem hdKeyPublicKey_private_first
    (identifier : string) (data : CompilationData)
    (environment : CompilationEnvironment) (hdKeys : CompilationDataHdKeys)
    (entityOwnership : gmap string string)
    (variables : gmap string AuthenticationTemplateVariable)
    (entityId entityHdPrivateKey : string) (index : Z)
    (privateResult : CompilerOperationResult) :
  data.(data_hdKeys) = Some hdKeys →
  environment.(env_entityOwnership) = Some entityOwnership →
  entityOwnership !! variableIdOf identifier = Some entityId →
  hdKeys.(addressIndex) = Some index →
  environment.(env_variables) = Some variables →
  hdKeys.(hdPrivateKeys) ≫= (.!! entityId) = Some entityHdPrivateKey →
  compilerOperationHelperDeriveHdPrivateNode
    index entityHdPrivateKey entityId environment
    (asHdKey <$> variables !! variableIdOf identifier) identifier
  = Some privateResult →
  let result :=
    compilerOperationHdKeyPublicKeyDerive
      Defaults HdPublicNode publicKey decodeHdPublicKey deriveHdPath
      compilerOperationHelperUnknownEntity
      compilerOperationHelperAddressIndex
      compilerOperationHelperDeriveHdPrivateNode identifier data
      environment in
  (∀ error recoverable,
     privateResult = Error error recoverable →
     result = Some (Error error recoverable)) ∧
  (∀ privateKey secp256k1,
     privateResult = Success privateKey →
     environment.(env_secp256k1) = Some secp256k1 →
     result
     = Some (Success (secp256k1.(derivePublicKeyCompressed) privateKey))).
Proof.
  intros Hdata Hownership Hentity Hindex Hvariables Hprivate Hderived
    result. subst result.
  unfold compilerOperationHdKeyPublicKeyDerive.
  rewrite Hdata, Hownership. simpl.
  rewrite Hentity, Hindex, Hprivate, Hvariables. simpl.
  rewrite Hderived. simpl. split.
  - by intros error recoverable ->.
  - intros privateKey secp256k1 -> Hsecp256k1. by rewrite Hsecp256k1.
Qed.

(** X14.  On the public path, when the HD public key of the entity cannot
    be decoded, the result is a fatal error that carries the message of the
    decoding; no path is derived.  The variable may be of any type. *)
Theorem hdKeyPublicKey_decode_failure
    (identifier : string) (data : CompilationData)
    (environment : CompilationEnvironment) (hdKeys : CompilationDataHdKeys)
    (entityOwnership : gmap string string)
    (variables : gmap string AuthenticationTemplateVariable)
    (variable : AuthenticationTemplateVariable)
    (entityId entityHdPublicKey message : string) (index : Z) :
  data.(data_hdKeys) = Some hdKeys →
  environment.(env_entityOwnership) = Some entityOwnership →
  entityOwnership !! variableIdOf identifier = Some entityId →
  hdKeys.(addressIndex) = Some index →
  hdKeys.(hdPrivateKeys) ≫= (.!! entityId) = None →
  hdKeys.(hdPublicKeys) ≫= (.!! entityId) = Some entityHdPublicKey →
  environment.(env_variables) = Some variables →
  variables !! variableIdOf identifier = Some variable →
  decodeHdPublicKey environment entityHdPublicKey = inl message →
  compilerOperationHdKeyPublicKeyDerive
    Defaults HdPublicNode publicKey decodeHdPublicKey deriveHdPath
    compilerOperationHelperUnknownEntity compilerOperationHelperAddressIndex
    compilerOperationHelperDeriveHdPrivateNode identifier data environment
  = Some (Error
            ("Could not generate " +:+ quoted identifier +:+ " " +:+ endash
             +:+ " the HD public key provided for " +:+ quoted entityId
             +:+ " could not be decoded: " +:+ message)
            false).
Proof.
  intros Hdata Hownership Hentity Hindex Hprivate Hpublic Hvariables
    Hvariable Hdecoded.
  unfold compilerOperationHdKeyPublicKeyDerive.
  rewrite Hdata, Hownership. simpl.
  rewrite Hentity, Hindex, Hprivate, Hvariables. simpl.
  rewrite Hpublic, Hvariable. simpl. by rewrite Hdecoded.
Qed.

(** X15.  With a public derivation path given, the private derivation path
    plays no part; only the first [i] of the path is replaced by the
    decimal address number, whatever follows it; and a path without [i] is
    the instance path of every address index. *)
Theorem instancePath_first_placeholder
    (hdKey : HdKey) (path : string) (index : Z) :
  hdKey.(publicDerivationPath) = Some path →
  let number :=
    Number_toString
      (index + default Defaults.(hdKeyAddressOffset) hdKey.(addressOffset)) in
  (∀ prefix suffix,
     path = prefix +:+ "i" +:+ suffix →
     lacks "i" prefix = true →
     instancePathOf Defaults hdKey index = prefix +:+ number +:+ suffix) ∧
  (lacks "i" path = true → instancePathOf Defaults hdKey index = path).
Proof.
  intros Hpath number. unfold instancePathOf. rewrite Hpath. simpl.
  fold number. split.
  - intros prefix suffix -> Hprefix.
    change ("i" +:+ suffix) with (String "i" suffix).
    by apply replace_first.
  - apply replace_lacks.
Qed.

(** X16.  Without a public derivation path, the instance path comes from
    the private derivation path (that of the variable, or the default):
    for a private path [m<middle>i<suffix>] whose middle has no [i], it is
    [M<middle>] followed by the decimal address number and the suffix. *)
Theorem instancePath_from_private_path
    (hdKey : HdKey) (middle suffix : string) (index : Z) :
  hdKey.(publicDerivationPath) = None →
  default Defaults.(hdKeyPrivateDerivationPath)
          hdKey.(privateDerivationPath)
  = "m" +:+ middle +:+ "i" +:+ suffix →
  lacks "i" middle = true →
  instancePathOf Defaults hdKey index
  = "M" +:+ middle
    +:+ Number_toString
          (index
           + default Defaults.(hdKeyAddressOffset) hdKey.(addressOffset))
    +:+ suffix.
Proof.
  intros Hpublic Hprivate Hmiddle. unfold instancePathOf.
  rewrite Hpublic, Hprivate. cbn [default].
  change (replace "m" "M" ("m" +:+ middle +:+ "i" +:+ suffix))
    with (String "M" middle +:+ String "i" suffix).
  rewrite replace_first; [done|].
  simpl. by rewrite Hmiddle.
Qed.

End HdPublicKeyProperties.

Lemma hdKeyPublicKey_entity_then_index_witness :
  compilerOperationHdKeyPublicKeyDerive
    Sample.Defaults string Sample.nodePublicKey Sample.decodeHdPublicKey
    Sample.deriveHdPath Sample.unknownEntity Sample.missingAddressIndex
    Sample.derivePrivateNode "bob.public_key" Sample.noIndexData
    Sample.fullEnvironment
  = Some (Sample.unknownEntity "bob.public_key" "bob") ∧
  compilerOperationHdKeyPublicKeyDerive
    Sample.Defaults string Sample.nodePublicKey Sample.decodeHdPublicKey
    Sample.deriveHdPath Sample.unknownEntity Sample.missingAddressIndex
    Sample.derivePrivateNode "alice.public_key" Sample.noIndexData
    Sample.fullEnvironment
  = Some (Sample.missingAddressIndex "alice.public_key").
Proof.
  split.
  - destruct (hdKeyPublicKey_entity_then_index
                Sample.Defaults string Sample.nodePublicKey
                Sample.decodeHdPublicKey Sample.deriveHdPath
                Sample.unknownEntity Sample.missingAddressIndex
                Sample.derivePrivateNode "bob.public_key"
                Sample.noIndexData Sample.fullEnvironment _ _
                eq_refl eq_refl) as [Hunknown _].
    apply Hunknown. reflexivity.
  - destruct (hdKeyPublicKey_entity_then_index
                Sample.Defaults string Sample.nodePublicKey
                Sample.decodeHdPublicKey Sample.deriveHdPath
                Sample.unknownEntity Sample.missingAddressIndex
                Sample.derivePrivateNode "alice.public_key"
                Sample.noIndexData Sample.fullEnvironment _ _
                eq_refl eq_refl) as [_ Hindex].
    apply Hindex; [|reflexivity]. exists "owner". reflexivity.
Defined.

Lemma hdKeyPublicKey_missing_keys_witness :
  recoverableError'
    (compilerOperationHdKeyPublicKeyDerive
       Sample.Defaults string Sample.nodePublicKey Sample.decodeHdPublicKey
       Sample.deriveHdPath Sample.unknownEntity Sample.missingAddressIndex
       Sample.derivePrivateNode "alice.public_key" Sample.hdNoKeysData
       Sample.fullEnvironment).
Proof.
  eexists.
  eapply (hdKeyPublicKey_missing_keys
            Sample.Defaults string Sample.nodePublicKey
            Sample.decodeHdPublicKey Sample.deriveHdPath
            Sample.unknownEntity Sample.missingAddressIndex
            Sample.derivePrivateNode "alice.public_key"
            Sample.hdNoKeysData Sample.fullEnvironment _ _ "owner" 3%Z);
    try reflexivity.
  simpl. eauto.
Defined.

Lemma hdKeyPublicKey_private_first_witness :
  compilerOperationHdKeyPublicKeyDerive
    Sample.Defaults string Sample.nodePublicKey Sample.decodeHdPublicKey
    Sample.deriveHdPath Sample.unknownEntity Sample.missingAddressIndex
    Sample.derivePrivateNode "alice.public_key" Sample.hdSigningData
    Sample.fullEnvironment
  = Some (Error "no private derivation" false).
Proof.
  destruct (hdKeyPublicKey_private_first
              Sample.Defaults string Sample.nodePublicKey
              Sample.decodeHdPublicKey Sample.deriveHdPath
              Sample.unknownEntity Sample.missingAddressIndex
              Sample.derivePrivateNode "alice.public_key"
              Sample.hdSigningData Sample.fullEnvironment _ _ _
              "owner" "xprv" 3%Z _
              eq_refl eq_refl eq_refl eq_refl eq_refl eq_refl eq_refl)
    as [Herror _].
  apply Herror. reflexivity.
Defined.

Lemma hdKeyPublicKey_decode_failure_witness :
  fatalError'
    (compilerOperationHdKeyPublicKeyDerive
       Sample.Defaults string Sample.nodePublicKey
       Sample.failingDecodeHdPublicKey Sample.deriveHdPath
       Sample.unknownEntity Sample.missingAddressIndex
       Sample.derivePrivateNode "alice.public_key" Sample.hdKeysData
       Sample.fullEnvironment).
Proof.
  eexists.
  eapply (hdKeyPublicKey_decode_failure
            Sample.Defaults string Sample.nodePublicKey
            Sample.failingDecodeHdPublicKey Sample.deriveHdPath
            Sample.unknownEntity Sample.missingAddressIndex
            Sample.derivePrivateNode "alice.public_key"
            Sample.hdKeysData Sample.fullEnvironment _ _ _ _
            "owner" "xpub" "bad checksum" 3%Z);
    reflexivity.
Defined.

Lemma instancePath_first_placeholder_witness :
  instancePathOf Sample.Defaults
    {| addressOffset := Some 2%Z; privateDerivationPath := Some "m/9";
       publicDerivationPath := Some "M/i/i" |} 3
  = "M/" +:+ "5" +:+ "/i".
Proof.
  destruct (instancePath_first_placeholder Sample.Defaults
              {| addressOffset := Some 2%Z;
                 privateDerivationPath := Some "m/9";
                 publicDerivationPath := Some "M/i/i" |}
              "M/i/i" 3 eq_refl) as [Hfirst _].
  apply (Hfirst "M/" "/i"); reflexivity.
Defined.

Lemma instancePath_from_private_path_witness :
  instancePathOf Sample.Defaults
    {| addressOffset := Some 2%Z; privateDerivationPath := Some "m/0/i";
       publicDerivationPath := None |} 3
  = "M" +:+ "/0/" +:+ "5" +:+ EmptyString.
Proof.
  apply (instancePath_from_private_path Sample.Defaults
           {| addressOffset := Some 2%Z;
              privateDerivationPath := Some "m/0/i";
              publicDerivationPath := None |} "/0/" EmptyString 3);
    reflexivity.
Defined.

(** ** The scripts of a template and the order of its entities *)

Lemma foldl_insert_entries {A B} (f : A → B)
    (entries : list (string * A)) (start : gmap string B) (key : string) :
  NoDup entries.*1 →
  foldl (λ all '(id, def), <[id := f def]> all) start entries !! key
  = match (list_to_map entries : gmap string A) !! key with
    | Some def => Some (f def)
    | None => start !! key
    end.
Proof.
  revert start. induction entries as [|[id def] entries IH];
    intros start Hnodup; [done|].
  rewrite fmap_cons in Hnodup.
  apply NoDup_cons in Hnodup as [Hfresh Hnodup]. cbn [fst] in Hfresh.
  cbn [foldl]. rewrite (IH _ Hnodup).
  change (list_to_map ((id, def) :: entries))
    with (<[id := def]> (list_to_map entries : gmap string A)).
  destruct (decide (id = key)) as [->|Hne].
  - by rewrite (not_elem_of_list_to_map_1 _ _ Hfresh), !lookup_insert_eq.
  - rewrite (lookup_insert_ne (list_to_map entries)) by done.
    destruct (list_to_map entries !! key); [done|].
    by apply lookup_insert_ne.
Qed.

(** X17.  The scripts of the environment are the scripts of the template,
    each id mapped to the source text of its definition: no script is
    lost, added or renamed. *)
Theorem templateEnvironment_scripts (template : AuthenticationTemplate) :
  (authenticationTemplateToCompilationEnvironment template).(scripts)
  = script <$> template.(template_scripts).
Proof.
  unfold authenticationTemplateToCompilationEnvironment. simpl.
  apply map_eq. intros id. unfold Object_entries.
  rewrite (foldl_insert_entries script)
    by apply NoDup_fst_map_to_list.
  rewrite list_to_map_to_list, lookup_fmap, lookup_empty.
  by destruct (template_scripts template !! id).
Qed.

Lemma variablesStep_comm all first second :
  declared first ##ₘ declared second →
  variablesStep (variablesStep all first) second
  = variablesStep (variablesStep all second) first.
Proof.
  intros Hdisjoint. apply map_eq. intros variableId.
  rewrite !variablesStep_lookup.
  destruct (declared first !! variableId) as [variable|] eqn:Hfirst,
    (declared second !! variableId) as [variable'|] eqn:Hsecond;
    try done.
  by destruct (proj1 (map_disjoint_spec _ _) Hdisjoint _ _ _ Hfirst Hsecond).
Qed.

Lemma ownershipStep_comm all first second :
  declared first.2 ##ₘ declared second.2 →
  ownershipStep (ownershipStep all first) second
  = ownershipStep (ownershipStep all second) first.
Proof.
  destruct first as [firstId first], second as [secondId second].
  cbn [snd]. intros Hdisjoint. apply map_eq. intros variableId.
  rewrite !ownershipStep_lookup.
  destruct (declared first !! variableId) as [variable|] eqn:Hfirst,
    (declared second !! variableId) as [variable'|] eqn:Hsecond;
    try done.
  by destruct (proj1 (map_disjoint_spec _ _) Hdisjoint _ _ _ Hfirst Hsecond).
Qed.

Lemma adapter_folds_permutation
    (entities entities' : list (string * AuthenticationTemplateEntity)) :
  entities ≡ₚ entities' →
  unambiguous entities →
  unambiguous entities' ∧
  (∀ all, foldl variablesStep all entities.*2
          = foldl variablesStep all entities'.*2) ∧
  (∀ all, foldl ownershipStep all entities
          = foldl ownershipStep all entities').
Proof.
  induction 1 as [|entry entities entities' Hperm IH
                  |first second entities
                  |entities entities' entities'' Hperm IH Hperm' IH'].
  - done.
  - intros [Hentry Hrest]. destruct (IH Hrest) as (Hrest' & Hv & Ho).
    split; [|split].
    + split; [|done]. intros other Hother. apply Hentry.
      by rewrite Hperm.
    + intros all. rewrite !fmap_cons. cbn [foldl]. apply Hv.
    + intros all. cbn [foldl]. apply Ho.
  - intros (Hsecond & Hfirst & Hrest).
    assert (declared first.2 ##ₘ declared second.2) as Hdisjoint.
    { symmetry. apply Hsecond. apply list_elem_of_here. }
    split; [|split].
    + split; [|split; [|done]].
      * intros other [->|Hother]%elem_of_cons; [done|]. by apply Hfirst.
      * intros other Hother. apply Hsecond. by apply list_elem_of_further.
    + intros all. rewrite !fmap_cons. cbn [foldl].
      by rewrite (variablesStep_comm all first.2 second.2).
    + intros all. cbn [foldl].
      by rewrite (ownershipStep_comm all first second).
  - intros Hentities. destruct (IH Hentities) as (Hmiddle & Hv & Ho).
    destruct (IH' Hmiddle) as (Hlast & Hv' & Ho').
    split; [done|]. split; intros all.
    + by rewrite Hv, Hv'.
    + by rewrite Ho, Ho'.
Qed.

(** X18.  For a template in which no two entities declare the same
    variable id, the environment does not depend on the order in which the
    entities are enumerated. *)
Theorem templateEnvironment_order_irrelevant
    (entities entities' : list (string * AuthenticationTemplateEntity))
    (templateScripts : gmap string AuthenticationTemplateScript) :
  unambiguous entities →
  entities ≡ₚ entities' →
  authenticationTemplateToCompilationEnvironment
    {| template_entities := entities; template_scripts := templateScripts |}
  = authenticationTemplateToCompilationEnvironment
      {| template_entities := entities';
         template_scripts := templateScripts |}.
Proof.
  intros Hunambiguous Hperm.
  destruct (adapter_folds_permutation _ _ Hperm Hunambiguous)
    as (_ & Hvariables & Hownership).
  unfold authenticationTemplateToCompilationEnvironment. simpl.
  fold variablesStep.
  change (foldl _ ∅ entities) with (foldl ownershipStep ∅ entities).
  change (foldl _ ∅ entities') with (foldl ownershipStep ∅ entities').
  by rewrite Hvariables, Hownership.
Qed.

Lemma templateEnvironment_order_irrelevant_witness :
  authenticationTemplateToCompilationEnvironment Sample.plainTemplate
  = authenticationTemplateToCompilationEnvironment
      Sample.plainTemplateReordered.
Proof.
  apply (templateEnvironment_order_irrelevant
           (template_entities Sample.plainTemplate)
           (template_entities Sample.plainTemplateReordered)).
  - simpl. split; [|split; [|done]].
    + intros other [->|Hother]%elem_of_cons.
      * simpl. apply map_disjoint_singleton_l. apply lookup_singleton_ne.
        discriminate.
      * by apply elem_of_nil in Hother.
    + intros other Hother. by apply elem_of_nil in Hother.
  - apply perm_swap.
Defined.

(** ** Address data and wallet data *)

(** X19.  The address-data and wallet-data operations look up the whole
    identifier, dots included, in the provided dictionary: a present entry
    is returned as the bytecode, and an absent one gives a recoverable
    error; neither operation fails fatally or skips. *)
Theorem dataOperations_lookup
    (identifier : string) (data : CompilationData)
    (environment : CompilationEnvironment) :
  (∀ addressData,
     data.(data_addressData) = Some addressData →
     let result := addressDataOperation identifier data environment in
     (∀ bytecode, addressData !! identifier = Some bytecode →
                  result = Some (Success bytecode)) ∧
     (addressData !! identifier = None → recoverableError' result) ∧
     ¬ fatalError' result ∧ result ≠ Some Skip ∧ result ≠ None) ∧
  (∀ walletData,
     data.(data_walletData) = Some walletData →
     let result := walletDataOperation identifier data environment in
     (∀ bytecode, walletData !! identifier = Some bytecode →
                  result = Some (Success bytecode)) ∧
     (walletData !! identifier = None → recoverableError' result) ∧
     ¬ fatalError' result ∧ result ≠ Some Skip ∧ result ≠ None).
Proof.
  unfold addressDataOperation, walletDataOperation, recoverableError',
    fatalError'.
  split.
  - intros addressData ->. simpl.
    destruct (addressData !! identifier) as [bytecode|];
      repeat split; try done; eauto;
      try (by intros ? [= <-]); by intros [? [=]].
  - intros walletData ->. simpl.
    destruct (walletData !! identifier) as [bytecode|];
      repeat split; try done; eauto;
      try (by intros ? [= <-]); by intros [? [=]].
Qed.

(** A dotted identifier is one key of the address data. *)
Example addressData_dotted_key :
  addressDataOperation "nonce.value" Sample.addressDataOnly
    Sample.bareEnvironment
  = Some (Success [x07]) ∧
  recoverableError'
    (addressDataOperation "nonce" Sample.addressDataOnly
       Sample.bareEnvironment) ∧
  recoverableError'
    (walletDataOperation "nonce.value" Sample.addressDataOnly
       Sample.bareEnvironment).
Proof. vm_compute. repeat split; eauto. Qed.
